(** * contiguous_view: a non-owning view over a contiguous run of elements

    A shallow embedding of [contiguous-view.h].

    - [size_t] is a 64-bit unsigned integer: a [Z] with its wrap-around
      written out ([size_t_wrap]).
    - A pointer is a byte address ([Z]); [p + n] on a [T*] advances the
      address by [n * sizeof(T)].  A reference [T&] is the address of the
      element it is bound to.
    - [assert] depends on the build: with [NDEBUG] it expands to nothing,
      otherwise a false condition aborts the program.
    - The template parameters [T] and [Extent] are parameters of the type
      [contiguous_view]; a [static_assert] or a failed [enable_if] rejects
      the program when it is built.
    - A member is given twice: as a function of the view, and as a
      program over the object that loads and stores its members
      ([method]); the two agree ([member_is_invoke]). *)

From Stdlib Require Import ZArith List Bool Lia.
Import ListNotations.
Local Open Scope Z_scope.

(** ** Machine integers and pointers *)

Definition SIZE_WIDTH : Z := 64.
Definition SIZE_MAX : Z := Eval cbv in 2 ^ SIZE_WIDTH - 1.

(** Conversion of an integer to [size_t]. *)
Definition size_t_wrap (z : Z) : Z := z mod (SIZE_MAX + 1).

Definition size_t_sub (a b : Z) : Z := size_t_wrap (a - b).
Definition size_t_mul (a b : Z) : Z := size_t_wrap (a * b).
Definition size_t_div (a b : Z) : Z := size_t_wrap (a / b).

(** A value is a [size_t] when it lies in the range of the type. *)
Definition is_size_t (z : Z) : Prop := 0 <= z <= SIZE_MAX.

(** [inline constexpr size_t dynamic_extent = -1;] *)
Definition dynamic_extent : Z := Eval cbv in size_t_wrap (-1).

Definition pointer : Type := Z.
Definition nullptr : pointer := 0.

(** What the view needs to know of its element type. *)
Record ctype : Type := { sizeof : positive; is_const : bool }.

Definition sizeofZ (T : ctype) : Z := Z.pos (sizeof T).

(** [std::byte] and [const std::byte]. *)
Definition std_byte : ctype := {| sizeof := 1; is_const := false |}.
Definition const_std_byte : ctype := {| sizeof := 1; is_const := true |}.

(** [p + n] and [p - n] for [p : T*], as exact integers.  They are the
    addresses the machine computes as long as they are addresses
    ([is_size_t]); the statements that order addresses assume so. *)
Definition ptr_add (T : ctype) (p : pointer) (n : Z) : pointer := p + n * sizeofZ T.
Definition ptr_sub (T : ctype) (p : pointer) (n : Z) : pointer := p - n * sizeofZ T.
(** [last - first] for two [T*]: the distance in elements, exact.  Two
    pointers into one array differ by a multiple of [sizeof(T)], and by
    no more than [PTRDIFF_MAX] bytes; up to that distance this is the
    [ptrdiff_t] the machine computes. *)
Definition ptr_diff (T : ctype) (last first : pointer) : Z := (last - first) / sizeofZ T.

(** [std::to_address] of a raw pointer. *)
Definition to_address (p : pointer) : pointer := p.
Definition reinterpret_cast (p : pointer) : pointer := p.

(** ** Outcomes of a call *)

Inductive build : Type :=
| Debug   (* assertions are compiled in *)
| NDEBUG. (* assertions are compiled out *)

Inductive outcome (A : Type) : Type :=
| Ok (a : A)
| AssertionFailed   (* [assert] aborted the program *)
| IllFormed.        (* rejected when built: [static_assert], [enable_if] *)

Arguments Ok {A} a.
Arguments AssertionFailed {A}.
Arguments IllFormed {A}.

Definition bind {A B : Type} (m : outcome A) (k : A -> outcome B) : outcome B :=
  match m with
  | Ok a => k a
  | AssertionFailed => AssertionFailed
  | IllFormed => IllFormed
  end.

Notation "x <- m ;; k" := (bind m (fun x => k))
  (at level 61, m at next level, right associativity).
Notation "m ;;; k" := (bind m (fun _ => k))
  (at level 61, right associativity).

Definition assert (b : build) (cond : bool) : outcome unit :=
  match b with
  | NDEBUG => Ok tt
  | Debug => if cond then Ok tt else AssertionFailed
  end.

Definition static_assert (cond : bool) : outcome unit :=
  if cond then Ok tt else IllFormed.

(** ** details::storage *)

(** The primary template has no member. *)
Record storage_static (Size : Z) : Set := Build_storage_static { }.
(** The specialisation for [dynamic_extent] keeps the count. *)
Record storage_dynamic : Set := { _size : Z }.

Definition storage (Size : Z) : Set :=
  if Size =? dynamic_extent then storage_dynamic else storage_static Size.

Definition storage_ctor (Size : Z) (count : Z) : storage Size :=
  match Size =? dynamic_extent as d
        return (if d then storage_dynamic else storage_static Size) with
  | true => {| _size := count |}
  | false => Build_storage_static Size
  end.

Definition storage_size (Size : Z) : storage Size -> Z :=
  match Size =? dynamic_extent as d
        return ((if d then storage_dynamic else storage_static Size) -> Z) with
  | true => fun s => _size s
  | false => fun _ => Size
  end.

(** ** contiguous_view *)

Record contiguous_view (T : ctype) (Extent : Z) : Type :=
  { st : storage Extent; _data : pointer }.

Arguments st {T Extent} _.
Arguments _data {T Extent} _.
Arguments Build_contiguous_view {T Extent} _ _.

Section Members.
Context {T : ctype} {Extent : Z}.
Implicit Type this : contiguous_view T Extent.

Definition data this : pointer := _data this.

Definition size this : Z := storage_size Extent (st this).

Definition size_bytes this : Z := size_t_mul (sizeofZ T) (size this).

Definition empty this : bool := size this =? 0.

Definition begin this : pointer := data this.
Definition cbegin this : pointer := data this.
Definition end_ this : pointer := ptr_add T (begin this) (size this).
Definition cend this : pointer := ptr_add T (begin this) (size this).

(** [operator[]]: the reference is the address of the element. *)
Definition index (b : build) this (idx : Z) : outcome pointer :=
  assert b (idx <? size this) ;;;
  Ok (ptr_add T (data this) idx).

(** [front()] is [return *begin();] and [back()] is [return *(end() - 1);]:
    neither holds an [assert], so the build does not matter. *)
Definition front (b : build) this : outcome pointer :=
  Ok (begin this).

Definition back (b : build) this : outcome pointer :=
  Ok (ptr_sub T (end_ this) 1).
End Members.

(** [contiguous_view()] *)
Definition default_ctor (T : ctype) (Extent : Z) : contiguous_view T Extent :=
  {| st := storage_ctor Extent 0; _data := nullptr |}.

(** [contiguous_view(It first, size_t count)] *)
Definition ctor (b : build) (T : ctype) (Extent : Z) (first : pointer) (count : Z)
  : outcome (contiguous_view T Extent) :=
  let this := {| st := storage_ctor Extent count; _data := to_address first |} in
  (if negb (Extent =? dynamic_extent)
   then assert b (count =? Extent)
   else Ok tt) ;;;
  Ok this.

(** [contiguous_view(It first, It last)]: the delegated constructor runs
    first, then the body. *)
Definition range_ctor (b : build) (T : ctype) (Extent : Z) (first last : pointer)
  : outcome (contiguous_view T Extent) :=
  this <- ctor b T Extent first (size_t_wrap (ptr_diff T last first)) ;;
  assert b (first <=? last) ;;;
  Ok this.

(** [contiguous_view(const contiguous_view&) = default] *)
Definition copy_ctor {T : ctype} {Extent : Z} (other : contiguous_view T Extent)
  : contiguous_view T Extent :=
  {| st := st other; _data := _data other |}.

(** The [enable_if] condition of the converting constructor. *)
Definition convertible (Extent N : Z) : bool :=
  (Extent =? dynamic_extent) || (N =? dynamic_extent) || (Extent =? N).

(** The [explicit(...)] conditions. *)
Definition ctor_explicit (Extent : Z) : bool := negb (Extent =? dynamic_extent).

(** [contiguous_view(const contiguous_view<U, N>& other)], for element
    types with a [U*] that converts to [T*] ([pointer_converts]); for
    others the initialisation of [_data] from [other.data()] does not
    build, whatever the extents. *)
Definition converting_ctor (b : build) (T : ctype) (Extent : Z)
    {U : ctype} {N : Z} (other : contiguous_view U N)
  : outcome (contiguous_view T Extent) :=
  if convertible Extent N
  then ctor b T Extent (data other) (size other)
  else IllFormed.

(** [operator=(const contiguous_view&) = default]: the new value of [*this]. *)
Definition assign {T : ctype} {Extent : Z}
    (this other : contiguous_view T Extent) : contiguous_view T Extent :=
  {| st := st other; _data := _data other |}.

(** ** Sub-ranges and bytes *)

Section SubRanges.
Context {T : ctype} {Extent : Z}.
Implicit Type this : contiguous_view T Extent.

(** The condition of the assertion of [subview]. *)
Definition subview_in_bounds this (offset count : Z) : bool :=
  (offset <=? size this)
  && ((count =? dynamic_extent) || (count <=? size_t_sub (size this) offset)).

(** [subview(size_t offset, size_t count = dynamic_extent)] *)
Definition subview (b : build) this (offset count : Z)
  : outcome (contiguous_view T dynamic_extent) :=
  assert b (subview_in_bounds this offset count) ;;;
  ctor b T dynamic_extent (ptr_add T (data this) offset)
    (if count =? dynamic_extent then size_t_sub (size this) offset else count).

(** [subview(offset)]: the count takes its default argument. *)
Definition subview_rest (b : build) this (offset : Z)
  : outcome (contiguous_view T dynamic_extent) :=
  subview b this offset dynamic_extent.

(** The extent of the result of [subview<Offset, Count>()]. *)
Definition subview_extent (Offset Count : Z) : Z :=
  if Count =? dynamic_extent
  then if Extent =? dynamic_extent
       then dynamic_extent
       else size_t_sub Extent Offset
  else Count.

(** [subview<Offset, Count>()] *)
Definition subview_static (b : build) (Offset Count : Z) this
  : outcome (contiguous_view T (subview_extent Offset Count)) :=
  (if negb (Extent =? dynamic_extent)
   then static_assert ((Offset <=? Extent)
          && ((Count =? dynamic_extent) || (Count <=? size_t_sub Extent Offset)))
   else assert b ((Offset <=? size this)
          && ((Count =? dynamic_extent)
              || (Count <=? size_t_sub (size this) Offset)))) ;;;
  ctor b T (subview_extent Offset Count) (ptr_add T (data this) Offset)
    (if Count =? dynamic_extent then size_t_sub (size this) Offset else Count).

(** [first<Count>()] *)
Definition first_static (b : build) (Count : Z) this
  : outcome (contiguous_view T Count) :=
  (if negb (Extent =? dynamic_extent)
   then static_assert (Count <=? Extent)
   else assert b (Count <=? size this)) ;;;
  ctor b T Count (begin this) Count.

(** [first(size_t count)] *)
Definition first (b : build) this (count : Z)
  : outcome (contiguous_view T dynamic_extent) :=
  assert b (count <=? size this) ;;;
  ctor b T dynamic_extent (begin this) count.

(** [last<Count>()] *)
Definition last_static (b : build) (Count : Z) this
  : outcome (contiguous_view T Count) :=
  (if negb (Extent =? dynamic_extent)
   then static_assert (Count <=? Extent)
   else assert b (Count <=? size this)) ;;;
  ctor b T Count (ptr_sub T (end_ this) Count) Count.

(** [last(size_t count)] *)
Definition last (b : build) this (count : Z)
  : outcome (contiguous_view T dynamic_extent) :=
  assert b (count <=? size this) ;;;
  ctor b T dynamic_extent (ptr_sub T (end_ this) count) count.

Definition as_bytes_return_type : ctype :=
  if is_const T then const_std_byte else std_byte.

Definition as_bytes_return_size : Z :=
  if Extent =? dynamic_extent
  then dynamic_extent
  else size_t_mul (size_t_div (sizeofZ T) (sizeofZ std_byte)) Extent.

(** [as_bytes()] *)
Definition as_bytes (b : build) this
  : outcome (contiguous_view as_bytes_return_type as_bytes_return_size) :=
  ctor b as_bytes_return_type as_bytes_return_size
    (reinterpret_cast (data this)) (size_bytes this).
End SubRanges.

Arguments subview_extent Extent Offset Count : clear implicits.
Arguments as_bytes_return_type T : clear implicits.
Arguments as_bytes_return_size T Extent : clear implicits.

(** The sequence a traversal from [begin()] to [end()] visits: the
    addresses of the elements of the view, in order. *)
Definition elements {T : ctype} {Extent : Z} (this : contiguous_view T Extent)
  : list pointer :=
  map (fun i => ptr_add T (begin this) (Z.of_nat i)) (seq 0 (Z.to_nat (size this))).

(** A view refers to storage that exists: its length is a [size_t] and
    the run of bytes it covers has a length [size_t] can hold. *)
Definition valid_count (T : ctype) (count : Z) : Prop :=
  0 <= count /\ count * sizeofZ T <= SIZE_MAX.

Definition valid_view {T : ctype} {Extent : Z} (this : contiguous_view T Extent) : Prop :=
  valid_count T (size this).

(** ** Calls on an object

    A member function runs on an object [*this] and leaves it in some
    state.  [call] lists the public operations; [invoke] gives what a call
    returns together with the value of [*this] after it. *)

Inductive retval : Type :=
| RPointer (p : pointer)
| RSize (n : Z)
| RBool (c : bool)
| RReference (r : pointer)
| RView (T : ctype) (Extent : Z) (v : contiguous_view T Extent)
| RThis.   (* [*this], returned by reference *)

Inductive call (T : ctype) (Extent : Z) : Type :=
| CallData | CallSize | CallSizeBytes | CallEmpty
| CallBegin | CallEnd | CallCbegin | CallCend
| CallIndex (idx : Z) | CallFront | CallBack
| CallSubview (offset count : Z) | CallSubviewRest (offset : Z)
| CallSubviewStatic (Offset Count : Z)
| CallFirst (count : Z) | CallFirstStatic (Count : Z)
| CallLast (count : Z) | CallLastStatic (Count : Z)
| CallAsBytes
| CallAssign (other : contiguous_view T Extent).

Arguments CallData {T Extent}.
Arguments CallSize {T Extent}.
Arguments CallSizeBytes {T Extent}.
Arguments CallEmpty {T Extent}.
Arguments CallBegin {T Extent}.
Arguments CallEnd {T Extent}.
Arguments CallCbegin {T Extent}.
Arguments CallCend {T Extent}.
Arguments CallIndex {T Extent} idx.
Arguments CallFront {T Extent}.
Arguments CallBack {T Extent}.
Arguments CallSubview {T Extent} offset count.
Arguments CallSubviewRest {T Extent} offset.
Arguments CallSubviewStatic {T Extent} Offset Count.
Arguments CallFirst {T Extent} count.
Arguments CallFirstStatic {T Extent} Count.
Arguments CallLast {T Extent} count.
Arguments CallLastStatic {T Extent} Count.
Arguments CallAsBytes {T Extent}.
Arguments CallAssign {T Extent} other.

(** The operations declared [const]. *)
Definition is_const_member {T : ctype} {Extent : Z} (c : call T Extent) : bool :=
  match c with
  | CallAssign _ => false
  | _ => true
  end.

Section Invoke.
Context {T : ctype} {Extent : Z}.
Implicit Type this : contiguous_view T Extent.

(** A [const] member function reads [*this] and cannot write to it. *)
Definition const_member {A : Type} (ret : A -> retval) (f : outcome A) this
  : outcome (retval * contiguous_view T Extent) :=
  r <- f ;; Ok (ret r, this).

Definition invoke (b : build) (c : call T Extent) this
  : outcome (retval * contiguous_view T Extent) :=
  match c with
  | CallData => const_member RPointer (Ok (data this)) this
  | CallSize => const_member RSize (Ok (size this)) this
  | CallSizeBytes => const_member RSize (Ok (size_bytes this)) this
  | CallEmpty => const_member RBool (Ok (empty this)) this
  | CallBegin => const_member RPointer (Ok (begin this)) this
  | CallEnd => const_member RPointer (Ok (end_ this)) this
  | CallCbegin => const_member RPointer (Ok (cbegin this)) this
  | CallCend => const_member RPointer (Ok (cend this)) this
  | CallIndex idx => const_member RReference (index b this idx) this
  | CallFront => const_member RReference (front b this) this
  | CallBack => const_member RReference (back b this) this
  | CallSubview offset count =>
      const_member (RView _ _) (subview b this offset count) this
  | CallSubviewRest offset =>
      const_member (RView _ _) (subview_rest b this offset) this
  | CallSubviewStatic Offset Count =>
      const_member (RView _ _) (subview_static b Offset Count this) this
  | CallFirst count => const_member (RView _ _) (first b this count) this
  | CallFirstStatic Count =>
      const_member (RView _ _) (first_static b Count this) this
  | CallLast count => const_member (RView _ _) (last b this count) this
  | CallLastStatic Count =>
      const_member (RView _ _) (last_static b Count this) this
  | CallAsBytes => const_member (RView _ _) (as_bytes b this) this
  | CallAssign other => Ok (RThis, assign this other)
  end.
End Invoke.

(** ** A view to compute with

    Five [int32_t] at address 4096, as a view of dynamic extent. *)

Definition int32_t : ctype := {| sizeof := 4; is_const := false |}.

Definition five_ints : contiguous_view int32_t dynamic_extent :=
  {| st := storage_ctor dynamic_extent 5; _data := 4096 |}.

(** ** The two builds side by side

    [relaxes d n]: [n], the outcome without assertions, is no abort and
    is the outcome [d] with assertions wherever [d] is no abort. *)
Definition relaxes {A : Type} (d n : outcome A) : Prop :=
  n <> AssertionFailed
  /\ match d with
     | Ok a => n = Ok a
     | IllFormed => n = IllFormed
     | AssertionFailed => True
     end.

(** Three [int32_t] at address 4096, as a view of static extent 3. *)
Definition three_ints : contiguous_view int32_t 3 :=
  {| st := storage_ctor 3 3; _data := 4096 |}.

(** ** Member functions as programs over [*this]

    The body of a member function reads, and may write, the members [st]
    and [_data] of the object it is called on.  A [method] is such a
    body: from the object before the call to what the call returns and
    the object after it.  Each body below is the body in the source: a
    member named in it is a [load], a call of a member on [*this] is the
    body of that member, and everything else is computed beside the
    object ([lift]). *)

Definition method (T : ctype) (Extent : Z) (A : Type) : Type :=
  contiguous_view T Extent -> outcome (A * contiguous_view T Extent).

Section Methods.
Context {T : ctype} {Extent : Z}.

Definition mret {A : Type} (a : A) : method T Extent A :=
  fun this => Ok (a, this).

Definition mbind {A B : Type} (m : method T Extent A)
    (k : A -> method T Extent B) : method T Extent B :=
  fun this =>
    match m this with
    | Ok (a, this') => k a this'
    | AssertionFailed => AssertionFailed
    | IllFormed => IllFormed
    end.

(** Reading and writing the two members. *)
Definition load_st : method T Extent (storage Extent) :=
  fun this => Ok (st this, this).
Definition load_data : method T Extent pointer :=
  fun this => Ok (_data this, this).
Definition store_st (s : storage Extent) : method T Extent unit :=
  fun this => Ok (tt, {| st := s; _data := _data this |}).
Definition store_data (p : pointer) : method T Extent unit :=
  fun this => Ok (tt, {| st := st this; _data := p |}).

(** An [assert], or the construction of another view. *)
Definition lift {A : Type} (o : outcome A) : method T Extent A :=
  fun this =>
    match o with
    | Ok a => Ok (a, this)
    | AssertionFailed => AssertionFailed
    | IllFormed => IllFormed
    end.
End Methods.

Notation "x <~ m ;; k" := (mbind m (fun x => k))
  (at level 61, m at next level, right associativity).
Notation "m ;;~ k" := (mbind m (fun _ => k))
  (at level 61, right associativity).

Section Bodies.
Context {T : ctype} {Extent : Z}.
Local Abbreviation M := (method T Extent).

(** [return _data;] *)
Definition data_body : M pointer := load_data.

(** [return st.size();] *)
Definition size_body : M Z :=
  s <~ load_st ;; mret (storage_size Extent s).

(** [return sizeof(T) * size();] *)
Definition size_bytes_body : M Z :=
  n <~ size_body ;; mret (size_t_mul (sizeofZ T) n).

(** [return size() == 0;] *)
Definition empty_body : M bool :=
  n <~ size_body ;; mret (n =? 0).

(** [return data();] *)
Definition begin_body : M pointer := data_body.
Definition cbegin_body : M pointer := data_body.

(** [return begin() + size();] *)
Definition end_body : M pointer :=
  p <~ begin_body ;; n <~ size_body ;; mret (ptr_add T p n).
Definition cend_body : M pointer :=
  p <~ begin_body ;; n <~ size_body ;; mret (ptr_add T p n).

(** [assert(idx < size()); return *(data() + idx);] *)
Definition index_body (b : build) (idx : Z) : M pointer :=
  n <~ size_body ;;
  lift (assert b (idx <? n)) ;;~
  p <~ data_body ;;
  mret (ptr_add T p idx).

(** [return *begin();] *)
Definition front_body (b : build) : M pointer :=
  p <~ begin_body ;; mret p.

(** [return *(end() - 1);] *)
Definition back_body (b : build) : M pointer :=
  e <~ end_body ;; mret (ptr_sub T e 1).

(** [assert(offset <= size() && (count == dynamic_extent
            || count <= size() - offset));
     return contiguous_view<T, dynamic_extent>(data() + offset,
       count == dynamic_extent ? size() - offset : count);] *)
Definition subview_body (b : build) (offset count : Z)
  : M (contiguous_view T dynamic_extent) :=
  n <~ size_body ;;
  n' <~ size_body ;;
  lift (assert b ((offset <=? n)
                  && ((count =? dynamic_extent)
                      || (count <=? size_t_sub n' offset)))) ;;~
  p <~ data_body ;;
  m <~ size_body ;;
  lift (ctor b T dynamic_extent (ptr_add T p offset)
          (if count =? dynamic_extent then size_t_sub m offset else count)).

(** The body of [subview<Offset, Count>()]. *)
Definition subview_static_body (b : build) (Offset Count : Z)
  : M (contiguous_view T (subview_extent Extent Offset Count)) :=
  n <~ size_body ;;
  n' <~ size_body ;;
  lift (if negb (Extent =? dynamic_extent)
        then static_assert ((Offset <=? Extent)
               && ((Count =? dynamic_extent)
                   || (Count <=? size_t_sub Extent Offset)))
        else assert b ((Offset <=? n)
               && ((Count =? dynamic_extent)
                   || (Count <=? size_t_sub n' Offset)))) ;;~
  p <~ data_body ;;
  m <~ size_body ;;
  lift (ctor b T (subview_extent Extent Offset Count) (ptr_add T p Offset)
          (if Count =? dynamic_extent then size_t_sub m Offset else Count)).

(** The bodies of [first<Count>()] and [first(count)]. *)
Definition first_static_body (b : build) (Count : Z)
  : M (contiguous_view T Count) :=
  n <~ size_body ;;
  lift (if negb (Extent =? dynamic_extent)
        then static_assert (Count <=? Extent)
        else assert b (Count <=? n)) ;;~
  p <~ begin_body ;;
  lift (ctor b T Count p Count).

Definition first_body (b : build) (count : Z)
  : M (contiguous_view T dynamic_extent) :=
  n <~ size_body ;;
  lift (assert b (count <=? n)) ;;~
  p <~ begin_body ;;
  lift (ctor b T dynamic_extent p count).

(** The bodies of [last<Count>()] and [last(count)]. *)
Definition last_static_body (b : build) (Count : Z)
  : M (contiguous_view T Count) :=
  n <~ size_body ;;
  lift (if negb (Extent =? dynamic_extent)
        then static_assert (Count <=? Extent)
        else assert b (Count <=? n)) ;;~
  e <~ end_body ;;
  lift (ctor b T Count (ptr_sub T e Count) Count).

Definition last_body (b : build) (count : Z)
  : M (contiguous_view T dynamic_extent) :=
  n <~ size_body ;;
  lift (assert b (count <=? n)) ;;~
  e <~ end_body ;;
  lift (ctor b T dynamic_extent (ptr_sub T e count) count).

(** [return contiguous_view<as_bytes_return_type, as_bytes_return_size>(
       reinterpret_cast<as_bytes_return_type*>(data()), size_bytes());] *)
Definition as_bytes_body (b : build)
  : M (contiguous_view (as_bytes_return_type T) (as_bytes_return_size T Extent)) :=
  p <~ data_body ;;
  n <~ size_bytes_body ;;
  lift (ctor b (as_bytes_return_type T) (as_bytes_return_size T Extent)
          (reinterpret_cast p) n).

(** The defaulted [operator=]: it assigns member by member. *)
Definition assign_body (other : contiguous_view T Extent) : M unit :=
  store_st (st other) ;;~
  store_data (_data other) ;;~
  mret tt.

(** The body a call runs, with what it returns as a [retval]. *)
Definition member (b : build) (c : call T Extent) : M retval :=
  match c with
  | CallData => p <~ data_body ;; mret (RPointer p)
  | CallSize => n <~ size_body ;; mret (RSize n)
  | CallSizeBytes => n <~ size_bytes_body ;; mret (RSize n)
  | CallEmpty => e <~ empty_body ;; mret (RBool e)
  | CallBegin => p <~ begin_body ;; mret (RPointer p)
  | CallEnd => p <~ end_body ;; mret (RPointer p)
  | CallCbegin => p <~ cbegin_body ;; mret (RPointer p)
  | CallCend => p <~ cend_body ;; mret (RPointer p)
  | CallIndex idx => r <~ index_body b idx ;; mret (RReference r)
  | CallFront => r <~ front_body b ;; mret (RReference r)
  | CallBack => r <~ back_body b ;; mret (RReference r)
  | CallSubview offset count =>
      w <~ subview_body b offset count ;; mret (RView _ _ w)
  | CallSubviewRest offset =>
      w <~ subview_body b offset dynamic_extent ;; mret (RView _ _ w)
  | CallSubviewStatic Offset Count =>
      w <~ subview_static_body b Offset Count ;; mret (RView _ _ w)
  | CallFirst count => w <~ first_body b count ;; mret (RView _ _ w)
  | CallFirstStatic Count => w <~ first_static_body b Count ;; mret (RView _ _ w)
  | CallLast count => w <~ last_body b count ;; mret (RView _ _ w)
  | CallLastStatic Count => w <~ last_static_body b Count ;; mret (RView _ _ w)
  | CallAsBytes => w <~ as_bytes_body b ;; mret (RView _ _ w)
  | CallAssign other => assign_body other ;;~ mret RThis
  end.
End Bodies.

(** A body that leaves the object as it found it. *)
Definition preserves {T : ctype} {Extent : Z} {A : Type}
    (m : method T Extent A) : Prop :=
  forall (this this' : contiguous_view T Extent) (a : A),
    m this = Ok (a, this') -> this' = this.

(** ** Addresses of the machine

    An address is a 64-bit number and the distance of two addresses a
    64-bit signed number of bytes. *)

Definition PTRDIFF_MAX : Z := Eval cbv in 2 ^ (SIZE_WIDTH - 1) - 1.

(** The storage of a view lies in the address space and is no longer
    than the longest distance: on such a view [begin()], [end()] and
    every address between them are what the machine computes, and so is
    their distance. *)
Definition in_address_space {T : ctype} {Extent : Z}
    (this : contiguous_view T Extent) : Prop :=
  0 <= size this
  /\ size this * sizeofZ T <= PTRDIFF_MAX
  /\ 0 <= data this
  /\ data this + size this * sizeofZ T <= SIZE_MAX.



(** * Properties *)

(** ** Arithmetic of [size_t] *)

Lemma SIZE_MAX_eq : SIZE_MAX = 18446744073709551615.
Proof. reflexivity. Qed.

Lemma dynamic_extent_is_SIZE_MAX : dynamic_extent = SIZE_MAX.
Proof. reflexivity. Qed.

Lemma size_t_wrap_id (z : Z) : is_size_t z -> size_t_wrap z = z.
Proof.
  unfold is_size_t, size_t_wrap. intros Hz.
  apply Z.mod_small. lia.
Qed.

Lemma size_t_wrap_range (z : Z) : is_size_t (size_t_wrap z).
Proof.
  unfold is_size_t, size_t_wrap.
  pose proof (Z.mod_pos_bound z (SIZE_MAX + 1)) as Hb.
  rewrite SIZE_MAX_eq in *. lia.
Qed.

Lemma sizeofZ_pos (T : ctype) : 0 < sizeofZ T.
Proof. unfold sizeofZ. lia. Qed.

Lemma valid_count_is_size_t (T : ctype) (count : Z) :
  valid_count T count -> is_size_t count.
Proof.
  unfold valid_count, is_size_t. intros [Hlo Hhi].
  pose proof (sizeofZ_pos T). split; [assumption | nia].
Qed.

Lemma size_t_sub_id (a b : Z) : is_size_t a -> 0 <= b <= a -> size_t_sub a b = a - b.
Proof.
  unfold size_t_sub. intros Ha Hb. apply size_t_wrap_id.
  unfold is_size_t in *. lia.
Qed.

(** ** The storage of the length *)

Lemma storage_size_ctor (Size count : Z) :
  storage_size Size (storage_ctor Size count)
  = if Size =? dynamic_extent then count else Size.
Proof.
  unfold storage_size, storage_ctor.
  destruct (Size =? dynamic_extent); reflexivity.
Qed.

Lemma storage_size_static (Size : Z) (s : storage Size) :
  Size <> dynamic_extent -> storage_size Size s = Size.
Proof.
  intros Hne. apply Z.eqb_neq in Hne.
  unfold storage_size. unfold storage in s. revert s.
  rewrite Hne. reflexivity.
Qed.

Lemma storage_dynamic_eta (s : storage dynamic_extent) :
  s = storage_ctor dynamic_extent (storage_size dynamic_extent s).
Proof. destruct s. reflexivity. Qed.

(** ** Construction *)

Lemma ctor_dynamic (b : build) (T : ctype) (p : pointer) (count : Z) :
  ctor b T dynamic_extent p count
  = Ok {| st := storage_ctor dynamic_extent count; _data := p |}.
Proof. reflexivity. Qed.

Lemma ctor_NDEBUG (T : ctype) (Extent : Z) (p : pointer) (count : Z) :
  ctor NDEBUG T Extent p count
  = Ok {| st := storage_ctor Extent count; _data := p |}.
Proof.
  unfold ctor. destruct (Extent =? dynamic_extent); reflexivity.
Qed.

Lemma ctor_static_Debug (T : ctype) (Extent : Z) (p : pointer) (count : Z) :
  Extent <> dynamic_extent ->
  ctor Debug T Extent p count
  = if count =? Extent
    then Ok {| st := storage_ctor Extent count; _data := p |}
    else AssertionFailed.
Proof.
  intros Hne. apply Z.eqb_neq in Hne.
  unfold ctor. rewrite Hne. simpl.
  destruct (count =? Extent); reflexivity.
Qed.

Lemma ctor_Ok_inv (b : build) (T : ctype) (Extent : Z) (p : pointer) (count : Z)
    (v : contiguous_view T Extent) :
  ctor b T Extent p count = Ok v ->
  v = {| st := storage_ctor Extent count; _data := p |}.
Proof.
  unfold ctor, to_address.
  destruct (negb (Extent =? dynamic_extent)); simpl.
  - destruct (assert b (count =? Extent)) as [[]| |]; simpl; congruence.
  - congruence.
Qed.

Lemma size_mk (T : ctype) (Extent : Z) (p : pointer) (count : Z) :
  size (T := T) {| st := storage_ctor Extent count; _data := p |}
  = if Extent =? dynamic_extent then count else Extent.
Proof. unfold size. simpl. apply storage_size_ctor. Qed.

Lemma size_static (T : ctype) (Extent : Z) (v : contiguous_view T Extent) :
  Extent <> dynamic_extent -> size v = Extent.
Proof. intros Hne. unfold size. now apply storage_size_static. Qed.

(** A dynamic view is determined by [data()] and [size()]. *)
Lemma dynamic_view_ext (T : ctype) (v w : contiguous_view T dynamic_extent) :
  data v = data w -> size v = size w -> v = w.
Proof.
  destruct v as [[sv] dv], w as [[sw] dw].
  intros Hd Hs. cbv in Hd, Hs. subst. reflexivity.
Qed.

(** C1: for every valid (location, count) pair, constructing a view and
    then reading [data()], [size()] and [size_bytes()] gives the location,
    the count and the count times the size of an element.  A count is
    valid when the bytes it covers can be counted in a [size_t] and, for a
    static extent, when it is the extent. *)
Theorem ctor_then_accessors (b : build) (T : ctype) (Extent : Z)
    (location : pointer) (count : Z) :
  valid_count T count ->
  Extent = dynamic_extent \/ count = Extent ->
  exists v : contiguous_view T Extent,
    ctor b T Extent location count = Ok v
    /\ data v = location
    /\ size v = count
    /\ size_bytes v = count * sizeofZ T.
Proof.
  intros Hvalid Hextent.
  exists {| st := storage_ctor Extent count; _data := location |}.
  assert (Hsize : size (T := T) {| st := storage_ctor Extent count; _data := location |}
                  = count).
  { rewrite size_mk. destruct (Extent =? dynamic_extent) eqn:He; [reflexivity|].
    destruct Hextent as [->| ->]; [discriminate | reflexivity]. }
  repeat split.
  - unfold ctor. destruct (Extent =? dynamic_extent) eqn:He; simpl; [reflexivity|].
    destruct Hextent as [->| ->]; [discriminate|].
    rewrite Z.eqb_refl. destruct b; reflexivity.
  - exact Hsize.
  - unfold size_bytes. rewrite Hsize. unfold size_t_mul.
    rewrite Z.mul_comm. apply size_t_wrap_id.
    destruct Hvalid as [Hlo Hhi]. pose proof (sizeofZ_pos T).
    unfold is_size_t. split; [nia | assumption].
Qed.

Lemma ctor_then_accessors_witness :
  exists v : contiguous_view int32_t dynamic_extent,
    ctor Debug int32_t dynamic_extent 4096 5 = Ok v
    /\ data v = 4096 /\ size v = 5 /\ size_bytes v = 5 * sizeofZ int32_t.
Proof.
  apply (ctor_then_accessors Debug int32_t dynamic_extent 4096 5).
  - split; vm_compute; intro H; discriminate H.
  - left; reflexivity.
Defined.



Lemma range_ctor_Ok_inv (b : build) (T : ctype) (Extent : Z) (first last : pointer)
    (v : contiguous_view T Extent) :
  range_ctor b T Extent first last = Ok v ->
  ctor b T Extent first (size_t_wrap (ptr_diff T last first)) = Ok v.
Proof.
  unfold range_ctor.
  destruct (ctor b T Extent first (size_t_wrap (ptr_diff T last first))) as [w| |];
    simpl; try discriminate.
  destruct (assert b (first <=? last)) as [[]| |]; simpl; congruence.
Qed.

(** C4: the [size()] of a view of static extent is the extent, whichever
    constructor made the view and whatever count it was given; a build
    with assertions accepts a count exactly when it is the extent and
    aborts on any other. *)
Theorem static_size_is_extent (T : ctype) (Extent : Z) :
  Extent <> dynamic_extent ->
  (forall v : contiguous_view T Extent, size v = Extent)
  /\ (forall count : Z, storage_size Extent (storage_ctor Extent count) = Extent)
  /\ size (default_ctor T Extent) = Extent
  /\ (forall b first count v,
         ctor b T Extent first count = Ok v -> size v = Extent)
  /\ (forall b first last v,
         range_ctor b T Extent first last = Ok v -> size v = Extent)
  /\ (forall b (U : ctype) (N : Z) (other : contiguous_view U N) v,
         converting_ctor b T Extent other = Ok v -> size v = Extent)
  /\ (forall first count,
         exists v, ctor NDEBUG T Extent first count = Ok v /\ size v = Extent)
  /\ (forall first count,
         (exists v, ctor Debug T Extent first count = Ok v) <-> count = Extent)
  /\ (forall first count,
         count <> Extent -> ctor Debug T Extent first count = AssertionFailed).
Proof.
  intros Hne.
  assert (Hall : forall v : contiguous_view T Extent, size v = Extent)
    by (intros v; now apply size_static).
  repeat match goal with |- _ /\ _ => split end; auto.
  - intros count. now apply storage_size_static.
  - intros first count. rewrite ctor_NDEBUG. eauto.
  - intros first count. rewrite (ctor_static_Debug T Extent first count Hne).
    destruct (count =? Extent) eqn:Hc.
    + apply Z.eqb_eq in Hc. split; eauto.
    + apply Z.eqb_neq in Hc. split; [intros [v Hv]; discriminate | contradiction].
  - intros first count Hc. rewrite (ctor_static_Debug T Extent first count Hne).
    apply Z.eqb_neq in Hc. now rewrite Hc.
Qed.

Lemma static_size_is_extent_witness :
  (forall v : contiguous_view int32_t 3, size v = 3)
  /\ ctor Debug int32_t 3 4096 7 = AssertionFailed
  /\ (exists v, ctor NDEBUG int32_t 3 4096 7 = Ok v /\ size v = 3).
Proof.
  assert (Hne : 3 <> dynamic_extent) by (intro H; discriminate H).
  pose proof (static_size_is_extent int32_t 3 Hne)
    as (Hall & _ & _ & _ & _ & _ & Hrel & _ & Hfail).
  split; [exact Hall | split].
  - apply Hfail. intro H; discriminate H.
  - apply Hrel.
Defined.

(** ** Element access *)

Lemma elements_length (T : ctype) (Extent : Z) (v : contiguous_view T Extent) :
  length (elements v) = Z.to_nat (size v).
Proof. unfold elements. now rewrite length_map, length_seq. Qed.

Lemma elements_nth (T : ctype) (Extent : Z) (v : contiguous_view T Extent) (i : nat) :
  (i < Z.to_nat (size v))%nat ->
  nth_error (elements v) i = Some (ptr_add T (data v) (Z.of_nat i)).
Proof.
  intros Hi. unfold elements, begin.
  rewrite nth_error_map, nth_error_seq.
  apply Nat.ltb_lt in Hi. rewrite Hi. reflexivity.
Qed.

(** On a view that is not empty, [front()] and [back()] are the first and
    the last element, and no build aborts. *)
Lemma front_back_nonempty (b : build) (T : ctype) (Extent : Z)
    (v : contiguous_view T Extent) :
  0 < size v ->
  (exists r, front b v = Ok r /\ nth_error (elements v) 0 = Some r)
  /\ (exists r, back b v = Ok r
        /\ nth_error (elements v) (Z.to_nat (size v) - 1) = Some r).
Proof.
  intros Hpos. split.
  - exists (data v). split; [reflexivity|].
    rewrite elements_nth by lia. unfold ptr_add. f_equal. simpl. lia.
  - exists (ptr_sub T (end_ v) 1). split; [reflexivity|].
    rewrite elements_nth by lia. f_equal.
    replace (Z.of_nat (Z.to_nat (size v) - 1)) with (size v - 1) by lia.
    unfold ptr_sub, end_, begin, ptr_add, pointer. ring.
Qed.

(** [operator[]] checks its index in a build with assertions. *)
Lemma index_Debug (T : ctype) (Extent : Z) (v : contiguous_view T Extent) (idx : Z) :
  index Debug v idx
  = if idx <? size v then Ok (ptr_add T (data v) idx) else AssertionFailed.
Proof. unfold index. simpl. destruct (idx <? size v); reflexivity. Qed.

(** C2: [front()] and [back()] hold no assertion.  On an empty view a
    build with assertions does not abort: it returns a reference formed
    from [data()], which is bound to no element of the view, while
    [operator[]] on the same view aborts. *)
Theorem front_back_empty_unchecked (T : ctype) (Extent : Z)
    (v : contiguous_view T Extent) :
  front Debug v = Ok (data v)
  /\ back Debug v = Ok (ptr_sub T (ptr_add T (data v) (size v)) 1)
  /\ empty (default_ctor int32_t dynamic_extent) = true
  /\ front Debug (default_ctor int32_t dynamic_extent) = Ok nullptr
  /\ back Debug (default_ctor int32_t dynamic_extent) = Ok (-4)
  /\ index Debug (default_ctor int32_t dynamic_extent) 0 = AssertionFailed.
Proof. repeat split. Qed.

(** ** Sub-ranges *)

Lemma firstn_seq_min (n start len : nat) :
  firstn n (seq start len) = seq start (Nat.min n len).
Proof.
  revert start len. induction n as [|n IH]; intros start [|len]; simpl; try reflexivity.
  now rewrite IH.
Qed.

Lemma map_seq_from (A : Type) (f : nat -> A) (start len : nat) :
  map f (seq start len) = map (fun i => f (start + i)%nat) (seq 0 len).
Proof.
  revert f. induction start as [|start IH]; intros f.
  - apply map_ext. reflexivity.
  - rewrite <- seq_shift, map_map, IH. apply map_ext.
    intros i. f_equal.
Qed.

Lemma first_Ok (b : build) (T : ctype) (Extent : Z)
    (v : contiguous_view T Extent) (count : Z) :
  count <= size v ->
  first b v count
  = Ok {| st := storage_ctor dynamic_extent count; _data := data v |}.
Proof.
  intros Hle. unfold first.
  apply Z.leb_le in Hle. rewrite Hle.
  destruct b; reflexivity.
Qed.

Lemma last_Ok (b : build) (T : ctype) (Extent : Z)
    (v : contiguous_view T Extent) (count : Z) :
  count <= size v ->
  last b v count
  = Ok {| st := storage_ctor dynamic_extent count;
          _data := ptr_sub T (end_ v) count |}.
Proof.
  intros Hle. unfold last.
  apply Z.leb_le in Hle. rewrite Hle.
  destruct b; reflexivity.
Qed.

(** C6: for [n <= size()], [first(n)] is a view of [n] elements that
    starts at [data()] and covers the first [n] elements of the view,
    and [last(n)] is a view of [n] elements that starts at
    [data() + size() - n] and covers the last [n] elements. *)
Theorem first_last_prefix_suffix (b : build) (T : ctype) (Extent : Z)
    (v : contiguous_view T Extent) (n : Z) :
  0 <= n <= size v ->
  (exists w, first b v n = Ok w
     /\ data w = data v
     /\ size w = n
     /\ elements w = firstn (Z.to_nat n) (elements v))
  /\ (exists w, last b v n = Ok w
        /\ data w = ptr_add T (data v) (size v - n)
        /\ size w = n
        /\ elements w = skipn (Z.to_nat (size v - n)) (elements v)).
Proof.
  intros [Hlo Hhi]. split.
  - eexists. split; [apply first_Ok; exact Hhi|].
    repeat split.
    unfold elements at 2. rewrite firstn_map, firstn_seq_min.
    unfold elements, begin, data, size. simpl.
    replace (Nat.min (Z.to_nat n) (Z.to_nat (storage_size Extent (st v))))
      with (Z.to_nat n) by (unfold size in Hhi; lia).
    reflexivity.
  - eexists. split; [apply last_Ok; exact Hhi|].
    assert (Hdata : ptr_sub T (end_ v) n = ptr_add T (data v) (size v - n)).
    { unfold ptr_sub, end_, begin, ptr_add, pointer. ring. }
    repeat split.
    + exact Hdata.
    + unfold elements at 2. rewrite skipn_map, skipn_seq.
      unfold elements, begin, data. simpl _data. rewrite Hdata.
      change (size (T := T) {| st := storage_ctor dynamic_extent n;
                               _data := ptr_sub T (end_ v) n |}) with n.
      replace (Z.to_nat (size v) - Z.to_nat (size v - n))%nat
        with (Z.to_nat n) by lia.
      rewrite (map_seq_from _ _ (0 + Z.to_nat (size v - n))).
      apply map_ext. intros i.
      replace (Z.of_nat (0 + Z.to_nat (size v - n) + i))
        with ((size v - n) + Z.of_nat i) by lia.
      unfold ptr_add, data, pointer. ring.
Qed.

Lemma first_last_prefix_suffix_witness :
  (exists w, first Debug five_ints 2 = Ok w
     /\ data w = 4096 /\ size w = 2
     /\ elements w = [4096; 4100])
  /\ (exists w, last Debug five_ints 2 = Ok w
        /\ data w = 4108 /\ size w = 2
        /\ elements w = [4108; 4112]).
Proof.
  assert (Hn : 0 <= 2 <= size five_ints)
    by (split; intro H; discriminate H).
  exact (first_last_prefix_suffix Debug int32_t dynamic_extent five_ints 2 Hn).
Defined.

Lemma subview_Ok (b : build) (T : ctype) (Extent : Z)
    (v : contiguous_view T Extent) (offset count : Z) :
  subview_in_bounds v offset count = true ->
  subview b v offset count
  = Ok {| st := storage_ctor dynamic_extent
                  (if count =? dynamic_extent
                   then size_t_sub (size v) offset else count);
          _data := ptr_add T (data v) offset |}.
Proof.
  intros Hin. unfold subview. rewrite Hin.
  destruct b; reflexivity.
Qed.

Lemma subview_Debug (T : ctype) (Extent : Z)
    (v : contiguous_view T Extent) (offset count : Z) :
  subview Debug v offset count
  = if subview_in_bounds v offset count
    then Ok {| st := storage_ctor dynamic_extent
                       (if count =? dynamic_extent
                        then size_t_sub (size v) offset else count);
               _data := ptr_add T (data v) offset |}
    else AssertionFailed.
Proof.
  unfold subview. simpl.
  destruct (subview_in_bounds v offset count); reflexivity.
Qed.

(** C9: for [o <= size()], [subview(o, c)] with [c] equal to
    [dynamic_extent], passed or defaulted, is the dynamic view of the
    [size() - o] elements from [data() + o]; a count of SIZE_MAX is the
    request for the rest of the view. *)
Theorem subview_rest_of_view (b : build) (T : ctype) (Extent : Z)
    (v : contiguous_view T Extent) (o : Z) :
  is_size_t (size v) ->
  0 <= o <= size v ->
  exists w : contiguous_view T dynamic_extent,
    subview b v o dynamic_extent = Ok w
    /\ subview b v o SIZE_MAX = Ok w
    /\ subview_rest b v o = Ok w
    /\ data w = ptr_add T (data v) o
    /\ size w = size v - o.
Proof.
  intros Hsize Ho.
  assert (Hin : subview_in_bounds v o dynamic_extent = true).
  { unfold subview_in_bounds. rewrite Z.eqb_refl.
    replace (o <=? size v) with true by (symmetry; apply Z.leb_le; lia).
    reflexivity. }
  eexists. split; [apply (subview_Ok b _ _ v o dynamic_extent Hin)|].
  split; [apply (subview_Ok b _ _ v o dynamic_extent Hin)|].
  split; [apply (subview_Ok b _ _ v o dynamic_extent Hin)|].
  split; [reflexivity|].
  rewrite Z.eqb_refl.
  change (size_t_sub (size v) o = size v - o).
  apply size_t_sub_id; assumption.
Qed.

Lemma subview_rest_of_view_witness :
  exists w : contiguous_view int32_t dynamic_extent,
    subview Debug five_ints 2 dynamic_extent = Ok w
    /\ subview Debug five_ints 2 SIZE_MAX = Ok w
    /\ subview_rest Debug five_ints 2 = Ok w
    /\ data w = 4104
    /\ size w = 3.
Proof.
  assert (Hs : is_size_t (size five_ints))
    by (split; intro H; discriminate H).
  assert (Ho : 0 <= 2 <= size five_ints)
    by (split; intro H; discriminate H).
  exact (subview_rest_of_view Debug int32_t dynamic_extent five_ints 2 Hs Ho).
Defined.

(** *** Composition of [subview] *)

(** C5, as stated: whenever both sides pass their bounds checks the two
    views are equal.  It fails when the second count is the sentinel and
    the first one cuts the view short: the left side ends where the inner
    view ends, the right side where the whole view ends. *)
Lemma subview_compose_sentinel_counterexample :
  exists u x y : contiguous_view int32_t dynamic_extent,
    subview Debug five_ints 0 3 = Ok u
    /\ subview Debug u 0 dynamic_extent = Ok x
    /\ subview Debug five_ints (size_t_wrap (0 + 0)) dynamic_extent = Ok y
    /\ data x = data y
    /\ size x = 3
    /\ size y = 5
    /\ x <> y.
Proof.
  exists {| st := storage_ctor dynamic_extent 3; _data := 4096 |},
         {| st := storage_ctor dynamic_extent 3; _data := 4096 |},
         {| st := storage_ctor dynamic_extent 5; _data := 4096 |}.
  repeat split. intros Heq. discriminate Heq.
Qed.

(** C5, amended: when both [subview]s on the left are in bounds, and the
    second count is a count and not the sentinel (or the inner view runs
    to the end of the view), the right side is in bounds too and both
    sides are the same view. *)
Theorem subview_compose (bm : build) (T : ctype) (Extent : Z)
    (v : contiguous_view T Extent) (a b c d : Z)
    (u : contiguous_view T dynamic_extent) :
  is_size_t (size v) ->
  0 <= a -> 0 <= b -> 0 <= c ->
  d <> dynamic_extent \/ b = dynamic_extent \/ b = size v - a ->
  subview_in_bounds v a b = true ->
  subview bm v a b = Ok u ->
  subview_in_bounds u c d = true ->
  size_t_wrap (a + c) = a + c
  /\ subview_in_bounds v (a + c) d = true
  /\ exists w, subview bm u c d = Ok w
               /\ subview bm v (a + c) d = Ok w
               /\ data w = ptr_add T (data v) (a + c).
Proof.
  intros Hsv Ha Hb Hc Hd Hin1 Hu Hin2.
  rewrite (subview_Ok bm _ _ v a b Hin1) in Hu. injection Hu as Hu.
  set (su := if b =? dynamic_extent then size_t_sub (size v) a else b) in *.
  assert (Hsu : size u = su) by (subst u; reflexivity).
  assert (Hdu : data u = ptr_add T (data v) a) by (subst u; reflexivity).
  unfold subview_in_bounds in Hin1, Hin2. rewrite Hsu in Hin2.
  apply andb_true_iff in Hin1 as [Hav Hbv], Hin2 as [Hcu Hdu'].
  apply Z.leb_le in Hav, Hcu.
  rewrite (size_t_sub_id (size v) a Hsv (conj Ha Hav)) in Hbv.
  assert (Hsu_le : su <= size v - a).
  { unfold su. destruct (b =? dynamic_extent) eqn:Hbd.
    - rewrite size_t_sub_id by (auto; lia). lia.
    - simpl in Hbv. apply Z.leb_le in Hbv. exact Hbv. }
  assert (Hsu_lo : 0 <= su) by lia.
  assert (Hsu_t : is_size_t su) by (unfold is_size_t in *; lia).
  rewrite (size_t_sub_id su c Hsu_t (conj Hc Hcu)) in Hdu'.
  assert (Hac : is_size_t (a + c)) by (unfold is_size_t in *; lia).
  assert (Hin3 : subview_in_bounds v (a + c) d = true).
  { unfold subview_in_bounds.
    rewrite (size_t_sub_id (size v) (a + c) Hsv) by lia.
    apply andb_true_iff. split; [apply Z.leb_le; lia|].
    destruct (d =? dynamic_extent); [reflexivity|].
    simpl in *. apply Z.leb_le in Hdu'. apply Z.leb_le. lia. }
  split; [now apply size_t_wrap_id|]. split; [exact Hin3|].
  assert (Hin2' : subview_in_bounds u c d = true).
  { unfold subview_in_bounds. rewrite Hsu.
    rewrite (size_t_sub_id su c Hsu_t (conj Hc Hcu)).
    apply andb_true_iff. split; [now apply Z.leb_le | exact Hdu']. }
  eexists. split; [apply (subview_Ok bm _ _ u c d Hin2')|].
  split; [|rewrite Hdu; unfold data, ptr_add, pointer; simpl; ring].
  rewrite (subview_Ok bm _ _ v (a + c) d Hin3). f_equal.
  apply dynamic_view_ext.
  - unfold data in *. simpl. rewrite Hdu. unfold ptr_add, pointer. ring.
  - rewrite !size_mk. simpl. rewrite Hsu.
    destruct (d =? dynamic_extent) eqn:Hdd; [|reflexivity].
    apply Z.eqb_eq in Hdd.
    rewrite (size_t_sub_id su c Hsu_t (conj Hc Hcu)).
    rewrite (size_t_sub_id (size v) (a + c) Hsv) by lia.
    assert (Hsu_eq : su = size v - a).
    { destruct Hd as [Hd | [Hd | Hd]]; [contradiction | |].
      - unfold su. apply Z.eqb_eq in Hd. rewrite Hd.
        apply size_t_sub_id; auto.
      - unfold su. destruct (b =? dynamic_extent);
          [apply size_t_sub_id; auto | exact Hd]. }
    lia.
Qed.

Lemma subview_compose_witness :
  exists w, subview Debug
              ({| st := storage_ctor dynamic_extent 3; _data := 4100 |}
                 : contiguous_view int32_t dynamic_extent) 1 2 = Ok w
            /\ subview Debug five_ints (1 + 1) 2 = Ok w
            /\ data w = 4104.
Proof.
  assert (Hs : is_size_t (size five_ints)) by (split; intro H; discriminate H).
  assert (H0 : 0 <= 1) by (intro H; discriminate H).
  assert (H3 : 0 <= 3) by (intro H; discriminate H).
  assert (Hd : 2 <> dynamic_extent \/ 3 = dynamic_extent \/ 3 = size five_ints - 1)
    by (left; intro H; discriminate H).
  exact (proj2 (proj2
    (subview_compose Debug int32_t dynamic_extent five_ints 1 3 1 2
       {| st := storage_ctor dynamic_extent 3; _data := 4100 |}
       Hs H0 H3 H0 Hd eq_refl eq_refl eq_refl))).
Defined.

(** ** The range constructor *)

Lemma ptr_diff_add (T : ctype) (p : pointer) (k : Z) :
  ptr_diff T (ptr_add T p k) p = k.
Proof.
  unfold ptr_diff, ptr_add, pointer.
  replace (p + k * sizeofZ T - p) with (k * sizeofZ T) by ring.
  apply Z.div_mul. pose proof (sizeofZ_pos T). lia.
Qed.

Lemma ptr_diff_nonneg (T : ctype) (first last : pointer) :
  first <= last -> 0 <= ptr_diff T last first.
Proof.
  intros Hle. unfold ptr_diff.
  apply Z.div_pos; [lia | apply sizeofZ_pos].
Qed.

(** C8: for [first <= last] the view made from [(first, last)] is the
    view made from [(first, last - first)]: both constructions give the
    same outcome, hence the same [data()] and [size()]; and a build with
    assertions makes no view from markers with [last < first]. *)
Theorem range_ctor_equiv (b : build) (T : ctype) (Extent : Z)
    (first last : pointer) :
  first <= last ->
  ptr_diff T last first <= SIZE_MAX ->
  range_ctor b T Extent first last = ctor b T Extent first (ptr_diff T last first)
  /\ (forall v, range_ctor b T Extent first last = Ok v ->
        exists w, ctor b T Extent first (ptr_diff T last first) = Ok w
                  /\ data v = data w /\ size v = size w /\ data v = first)
  /\ (forall v, ctor b T Extent first (ptr_diff T last first) = Ok v ->
        range_ctor b T Extent first last = Ok v)
  /\ (forall k : Z,
        is_size_t k ->
        range_ctor b T Extent first (ptr_add T first k) = ctor b T Extent first k)
  /\ (forall first' last' : pointer,
        last' < first' ->
        range_ctor Debug T Extent first' last' = AssertionFailed).
Proof.
  intros Hle Hfit.
  assert (Heq : range_ctor b T Extent first last
                = ctor b T Extent first (ptr_diff T last first)).
  { unfold range_ctor.
    rewrite size_t_wrap_id
      by (split; [now apply ptr_diff_nonneg | exact Hfit]).
    replace (first <=? last) with true by (symmetry; now apply Z.leb_le).
    destruct (ctor b T Extent first (ptr_diff T last first)); destruct b; reflexivity. }
  split; [exact Heq|]. split; [|split; [|split]].
  - intros v Hv. exists v. rewrite <- Heq.
    repeat split; try assumption.
    rewrite Heq in Hv. apply ctor_Ok_inv in Hv. subst v. reflexivity.
  - intros v Hv. now rewrite Heq.
  - intros k Hk. unfold range_ctor.
    rewrite ptr_diff_add, (size_t_wrap_id k Hk).
    replace (first <=? ptr_add T first k) with true.
    + destruct (ctor b T Extent first k); destruct b; reflexivity.
    + symmetry. apply Z.leb_le. unfold ptr_add.
      pose proof (sizeofZ_pos T). destruct Hk as [Hk0 _]. nia.
  - intros first' last' Hlt. unfold range_ctor, ctor.
    replace (first' <=? last') with false by (symmetry; apply Z.leb_gt; lia).
    destruct (negb (Extent =? dynamic_extent)); simpl; [|reflexivity].
    destruct (size_t_wrap (ptr_diff T last' first') =? Extent); reflexivity.
Qed.

Lemma range_ctor_equiv_witness :
  range_ctor Debug int32_t dynamic_extent 4096 4116
  = ctor Debug int32_t dynamic_extent 4096 (ptr_diff int32_t 4116 4096)
  /\ range_ctor Debug int32_t dynamic_extent 4096 4116 = Ok five_ints.
Proof.
  assert (Hle : 4096 <= 4116) by (intro H; discriminate H).
  assert (Hfit : ptr_diff int32_t 4116 4096 <= SIZE_MAX)
    by (intro H; discriminate H).
  split.
  - exact (proj1 (range_ctor_equiv Debug int32_t dynamic_extent 4096 4116 Hle Hfit)).
  - reflexivity.
Defined.

(** ** Bytes *)

Lemma size_t_wrap_mul_l (a b : Z) :
  size_t_wrap (size_t_wrap a * b) = size_t_wrap (a * b).
Proof.
  unfold size_t_wrap. apply Z.mul_mod_idemp_l.
  rewrite SIZE_MAX_eq. discriminate.
Qed.

Lemma as_bytes_return_size_static (T : ctype) (Extent : Z) :
  Extent <> dynamic_extent ->
  as_bytes_return_size T Extent = size_t_mul (sizeofZ T) Extent.
Proof.
  intros Hne. apply Z.eqb_neq in Hne.
  unfold as_bytes_return_size. rewrite Hne.
  unfold size_t_mul, size_t_div.
  change (sizeofZ std_byte) with 1. rewrite Z.div_1_r.
  apply size_t_wrap_mul_l.
Qed.

Lemma as_bytes_Ok (b : build) (T : ctype) (Extent : Z)
    (v : contiguous_view T Extent) :
  as_bytes b v
  = Ok {| st := storage_ctor (as_bytes_return_size T Extent) (size_bytes v);
          _data := data v |}.
Proof.
  unfold as_bytes, ctor, reinterpret_cast, to_address.
  destruct (as_bytes_return_size T Extent =? dynamic_extent) eqn:Hr;
    simpl; [reflexivity|].
  destruct b; [|reflexivity]. simpl.
  assert (Hne : Extent <> dynamic_extent).
  { intros ->. unfold as_bytes_return_size in Hr.
    rewrite Z.eqb_refl in Hr. discriminate Hr. }
  rewrite (as_bytes_return_size_static T Extent Hne).
  unfold size_bytes. rewrite (size_static T Extent v Hne).
  rewrite Z.eqb_refl. reflexivity.
Qed.

(** C7: [as_bytes()] gives a view of the same address whose [size()] is
    the [size()] of the view times the size of an element; its extent is
    [dynamic_extent] for a dynamic view and the extent times the size of
    an element for a static one. *)
Theorem as_bytes_size_and_data (b : build) (T : ctype) (Extent : Z)
    (v : contiguous_view T Extent) :
  valid_view v ->
  (exists w, as_bytes b v = Ok w
     /\ data w = data v
     /\ size w = size v * sizeofZ T
     /\ size w = size_bytes v)
  /\ (Extent = dynamic_extent -> as_bytes_return_size T Extent = dynamic_extent)
  /\ (Extent <> dynamic_extent -> as_bytes_return_size T Extent = Extent * sizeofZ T).
Proof.
  intros [Hlo Hhi].
  assert (Hbytes : size_bytes v = size v * sizeofZ T).
  { unfold size_bytes, size_t_mul. rewrite Z.mul_comm.
    apply size_t_wrap_id. pose proof (sizeofZ_pos T).
    unfold is_size_t. split; [nia | exact Hhi]. }
  split; [|split].
  - eexists. split; [apply as_bytes_Ok|].
    split; [reflexivity|].
    assert (Hsz : size (T := as_bytes_return_type T)
                    {| st := storage_ctor (as_bytes_return_size T Extent) (size_bytes v);
                       _data := data v |} = size_bytes v).
    { rewrite size_mk.
      destruct (as_bytes_return_size T Extent =? dynamic_extent) eqn:Hr;
        [reflexivity|].
      assert (Hne : Extent <> dynamic_extent).
      { intros ->. unfold as_bytes_return_size in Hr.
        rewrite Z.eqb_refl in Hr. discriminate Hr. }
      rewrite (as_bytes_return_size_static T Extent Hne).
      unfold size_bytes. now rewrite (size_static T Extent v Hne). }
    rewrite Hsz. split; [exact Hbytes | reflexivity].
  - intros ->. reflexivity.
  - intros Hne. rewrite (as_bytes_return_size_static T Extent Hne).
    rewrite <- (size_static T Extent v Hne) at 1 2.
    exact Hbytes.
Qed.

Lemma as_bytes_size_and_data_witness :
  exists w, as_bytes Debug five_ints = Ok w
            /\ data w = 4096
            /\ size w = 20
            /\ size w = size_bytes five_ints.
Proof.
  assert (Hv : valid_view five_ints) by (split; intro H; discriminate H).
  exact (proj1 (as_bytes_size_and_data Debug int32_t dynamic_extent five_ints Hv)).
Defined.

(** Without the assumption on the view the product is taken in [size_t]. *)
Lemma as_bytes_size_wraps (b : build) (T : ctype) (Extent : Z)
    (v : contiguous_view T Extent) :
  exists w, as_bytes b v = Ok w
            /\ data w = data v
            /\ size w = size_t_mul (sizeofZ T) (size v).
Proof.
  eexists. split; [apply as_bytes_Ok|]. split; [reflexivity|].
  rewrite size_mk.
  destruct (as_bytes_return_size T Extent =? dynamic_extent) eqn:Hr;
    [reflexivity|].
  assert (Hne : Extent <> dynamic_extent).
  { intros ->. unfold as_bytes_return_size in Hr.
    rewrite Z.eqb_refl in Hr. discriminate Hr. }
  rewrite (as_bytes_return_size_static T Extent Hne).
  now rewrite (size_static T Extent v Hne).
Qed.

(** ** Calls leave the view as it was *)

Lemma preserves_mret (T : ctype) (Extent : Z) (A : Type) (a : A) :
  preserves (T := T) (Extent := Extent) (mret a).
Proof. intros this this' a' H. unfold mret in H. congruence. Qed.

Lemma preserves_load_st (T : ctype) (Extent : Z) :
  preserves (T := T) (Extent := Extent) load_st.
Proof. intros this this' a H. unfold load_st in H. congruence. Qed.

Lemma preserves_load_data (T : ctype) (Extent : Z) :
  preserves (T := T) (Extent := Extent) load_data.
Proof. intros this this' a H. unfold load_data in H. congruence. Qed.

Lemma preserves_lift (T : ctype) (Extent : Z) (A : Type) (o : outcome A) :
  preserves (T := T) (Extent := Extent) (lift o).
Proof.
  intros this this' a H. unfold lift in H.
  destruct o; [congruence | discriminate | discriminate].
Qed.

Lemma preserves_mbind (T : ctype) (Extent : Z) (A B : Type)
    (m : method T Extent A) (k : A -> method T Extent B) :
  preserves m -> (forall a, preserves (k a)) -> preserves (mbind m k).
Proof.
  intros Hm Hk this this' y H. unfold mbind in H.
  destruct (m this) as [[a mid]| |] eqn:Hrun; try discriminate.
  apply Hm in Hrun. apply Hk in H. congruence.
Qed.

(** What a body returns when its last step wraps a value. *)
Lemma mbind_mret_inv (T : ctype) (Extent : Z) (A B : Type)
    (m : method T Extent A) (f : A -> B)
    (this this' : contiguous_view T Extent) (y : B) :
  mbind m (fun a => mret (f a)) this = Ok (y, this') ->
  exists a, m this = Ok (a, this') /\ y = f a.
Proof.
  unfold mbind, mret.
  destruct (m this) as [[a mid]| |]; try discriminate.
  intros H. injection H as <- <-. eauto.
Qed.

(** Stores are what changes the object. *)
Lemma store_data_writes (T : ctype) (Extent : Z) (p : pointer)
    (this : contiguous_view T Extent) :
  store_data p this = Ok (tt, {| st := st this; _data := p |}).
Proof. reflexivity. Qed.

Create HintDb frame.
#[local] Hint Resolve preserves_mret preserves_load_st preserves_load_data
  preserves_lift : frame.

(** Proves [preserves] of a body made of loads, lifted computations and
    bodies already known to preserve. *)
Ltac frame :=
  repeat first
    [ apply preserves_mbind; [|intro]
    | solve [auto with frame] ].

Section BodiesPreserve.
Context {T : ctype} {Extent : Z}.

Lemma data_body_preserves : preserves (T := T) (Extent := Extent) data_body.
Proof. unfold data_body. frame. Qed.

Lemma size_body_preserves : preserves (T := T) (Extent := Extent) size_body.
Proof. unfold size_body. frame. Qed.

#[local] Hint Resolve data_body_preserves size_body_preserves : frame.

Lemma size_bytes_body_preserves :
  preserves (T := T) (Extent := Extent) size_bytes_body.
Proof. unfold size_bytes_body. frame. Qed.

Lemma empty_body_preserves : preserves (T := T) (Extent := Extent) empty_body.
Proof. unfold empty_body. frame. Qed.

Lemma begin_body_preserves : preserves (T := T) (Extent := Extent) begin_body.
Proof. unfold begin_body. frame. Qed.

Lemma cbegin_body_preserves : preserves (T := T) (Extent := Extent) cbegin_body.
Proof. unfold cbegin_body. frame. Qed.

#[local] Hint Resolve size_bytes_body_preserves begin_body_preserves : frame.

Lemma end_body_preserves : preserves (T := T) (Extent := Extent) end_body.
Proof. unfold end_body. frame. Qed.

Lemma cend_body_preserves : preserves (T := T) (Extent := Extent) cend_body.
Proof. unfold cend_body. frame. Qed.

#[local] Hint Resolve end_body_preserves : frame.

Lemma index_body_preserves (b : build) (idx : Z) :
  preserves (T := T) (Extent := Extent) (index_body b idx).
Proof. unfold index_body. frame. Qed.

Lemma front_body_preserves (b : build) :
  preserves (T := T) (Extent := Extent) (front_body b).
Proof. unfold front_body. frame. Qed.

Lemma back_body_preserves (b : build) :
  preserves (T := T) (Extent := Extent) (back_body b).
Proof. unfold back_body. frame. Qed.

Lemma subview_body_preserves (b : build) (offset count : Z) :
  preserves (T := T) (Extent := Extent) (subview_body b offset count).
Proof. unfold subview_body. frame. Qed.

Lemma subview_static_body_preserves (b : build) (Offset Count : Z) :
  preserves (T := T) (Extent := Extent) (subview_static_body b Offset Count).
Proof. unfold subview_static_body. frame. Qed.

Lemma first_body_preserves (b : build) (count : Z) :
  preserves (T := T) (Extent := Extent) (first_body b count).
Proof. unfold first_body. frame. Qed.

Lemma first_static_body_preserves (b : build) (Count : Z) :
  preserves (T := T) (Extent := Extent) (first_static_body b Count).
Proof. unfold first_static_body. frame. Qed.

Lemma last_body_preserves (b : build) (count : Z) :
  preserves (T := T) (Extent := Extent) (last_body b count).
Proof. unfold last_body. frame. Qed.

Lemma last_static_body_preserves (b : build) (Count : Z) :
  preserves (T := T) (Extent := Extent) (last_static_body b Count).
Proof. unfold last_static_body. frame. Qed.

Lemma as_bytes_body_preserves (b : build) :
  preserves (T := T) (Extent := Extent) (as_bytes_body b).
Proof. unfold as_bytes_body. frame. Qed.

(** The body of [operator=] stores: after it the object is the assigned
    view, whatever it was, so it does not preserve. *)
Lemma assign_body_writes (this other : contiguous_view T Extent) :
  assign_body other this = Ok (tt, {| st := st other; _data := _data other |}).
Proof. reflexivity. Qed.
End BodiesPreserve.

(** The bodies compute what the members, taken as functions of the view,
    compute. *)
Lemma member_is_invoke (b : build) (T : ctype) (Extent : Z)
    (c : call T Extent) (v : contiguous_view T Extent) :
  member b c v = invoke b c v.
Proof.
  destruct c;
    cbv beta iota zeta delta
      [member invoke const_member mbind mret lift load_st load_data bind
       store_st store_data assign_body assign
       data_body size_body size_bytes_body empty_body begin_body cbegin_body
       end_body cend_body index_body front_body back_body subview_body
       subview_static_body first_body first_static_body last_body
       last_static_body as_bytes_body
       data size size_bytes empty begin cbegin end_ cend index front back
       subview subview_rest subview_in_bounds subview_static first
       first_static last last_static as_bytes];
    repeat match goal with
      | |- context [if negb ?x then _ else _] => destruct (negb x)
      | |- context [assert ?bm ?cond] => destruct (assert bm cond) as [[]| |]
      | |- context [static_assert ?cond] => destruct (static_assert cond) as [[]| |]
      | |- context [ctor ?bm ?U ?E ?p ?n] => destruct (ctor bm U E p n) as [?| |]
      end;
    reflexivity.
Qed.

(** C10: a call of [data], [size], [size_bytes], [empty], [begin], [end],
    [cbegin], [cend], [operator[]], [front], [back], [subview], [first],
    [last] or [as_bytes] that returns leaves the view it was called on as
    it was, with the same [data()] and [size()]; the sub-range and byte
    operations return their view as a value of its own, the one the
    member computes from the view it was called on. *)
Theorem const_calls_do_not_mutate (b : build) (T : ctype) (Extent : Z)
    (c : call T Extent) (v v' : contiguous_view T Extent) (r : retval) :
  is_const_member c = true ->
  member b c v = Ok (r, v') ->
  v' = v /\ data v' = data v /\ size v' = size v /\ r <> RThis
  /\ invoke b c v = Ok (r, v).
Proof.
  intros Hconst Hcall.
  assert (Hsame : v' = v).
  { revert Hcall. generalize r. generalize v'. generalize v.
    change (preserves (member b c)).
    destruct c; try discriminate Hconst; cbv beta iota delta [member];
      (apply preserves_mbind; [|intro; apply preserves_mret]).
    - apply data_body_preserves.
    - apply size_body_preserves.
    - apply size_bytes_body_preserves.
    - apply empty_body_preserves.
    - apply begin_body_preserves.
    - apply end_body_preserves.
    - apply cbegin_body_preserves.
    - apply cend_body_preserves.
    - apply index_body_preserves.
    - apply front_body_preserves.
    - apply back_body_preserves.
    - apply subview_body_preserves.
    - apply subview_body_preserves.
    - apply subview_static_body_preserves.
    - apply first_body_preserves.
    - apply first_static_body_preserves.
    - apply last_body_preserves.
    - apply last_static_body_preserves.
    - apply as_bytes_body_preserves. }
  subst v'.
  split; [reflexivity|]. split; [reflexivity|]. split; [reflexivity|].
  split; [|rewrite <- member_is_invoke; exact Hcall].
  destruct c; try discriminate Hconst; cbv beta iota delta [member] in Hcall;
    apply mbind_mret_inv in Hcall as [a [_ ->]]; discriminate.
Qed.

Lemma const_calls_do_not_mutate_witness :
  member Debug (CallSubview 1 3) five_ints
  = Ok (RView int32_t dynamic_extent
          {| st := storage_ctor dynamic_extent 3; _data := 4100 |},
        five_ints)
  /\ data five_ints = 4096 /\ size five_ints = 5.
Proof.
  pose proof (const_calls_do_not_mutate Debug int32_t dynamic_extent
                (CallSubview 1 3) five_ints five_ints
                (RView int32_t dynamic_extent
                   {| st := storage_ctor dynamic_extent 3; _data := 4100 |})
                eq_refl eq_refl) as [_ [Hd [Hs _]]].
  split; [reflexivity | split; [exact Hd | exact Hs]].
Defined.

(** Copy assignment is the one public operation that writes to [*this]. *)
Lemma assign_mutates :
  member Debug (CallAssign five_ints) (default_ctor int32_t dynamic_extent)
  = Ok (RThis, five_ints).
Proof. reflexivity. Qed.

(** * Further properties of the members *)

(** ** A view is its two words *)

Lemma storage_ext (Size : Z) (s1 s2 : storage Size) :
  storage_size Size s1 = storage_size Size s2 -> s1 = s2.
Proof.
  revert s1 s2. unfold storage_size, storage.
  destruct (Size =? dynamic_extent); intros s1 s2.
  - destruct s1, s2. simpl. congruence.
  - destruct s1, s2. reflexivity.
Qed.

Lemma view_ext (T : ctype) (Extent : Z) (v w : contiguous_view T Extent) :
  data v = data w -> size v = size w -> v = w.
Proof.
  destruct v as [sv dv], w as [sw dw]. unfold data, size. simpl.
  intros Hd Hs. apply storage_ext in Hs. congruence.
Qed.

(** ** Traversal and indexing *)

Lemma In_elements (T : ctype) (Extent : Z) (v : contiguous_view T Extent)
    (p : pointer) :
  In p (elements v) <->
  exists i : Z, 0 <= i < size v /\ p = ptr_add T (data v) i.
Proof.
  unfold elements, begin. rewrite in_map_iff. split.
  - intros [i [Hp Hi]]. apply in_seq in Hi. exists (Z.of_nat i). split; [lia | now symmetry].
  - intros [i [Hi Hp]]. exists (Z.to_nat i). split.
    + rewrite Z2Nat.id by lia. now symmetry.
    + apply in_seq. lia.
Qed.

(** X2: on a view whose storage lies in the address space, [begin()]
    and [end()] are addresses and bound the elements: a traversal visits
    [size()] addresses, each in [[begin(), end())] at a whole number of
    elements from [begin()]; [end() - begin()] is [size()]; [cbegin()]
    and [cend()] are the same markers; and the view is [empty()] exactly
    when [begin() == end()], which is when the traversal visits
    nothing. *)
Theorem traversal_between_begin_and_end (T : ctype) (Extent : Z)
    (v : contiguous_view T Extent) :
  in_address_space v ->
  cbegin v = begin v
  /\ cend v = end_ v
  /\ is_size_t (begin v)
  /\ is_size_t (end_ v)
  /\ 0 <= end_ v - begin v <= PTRDIFF_MAX
  /\ length (elements v) = Z.to_nat (size v)
  /\ ptr_diff T (end_ v) (begin v) = size v
  /\ (forall p, In p (elements v) ->
        is_size_t p
        /\ begin v <= p < end_ v
        /\ (p - begin v) mod sizeofZ T = 0)
  /\ (empty v = true <-> begin v = end_ v)
  /\ (empty v = true <-> elements v = []).
Proof.
  intros (Hsize & Hlen & Hlo & Hhi). pose proof (sizeofZ_pos T) as Hpos.
  assert (Hend : end_ v = data v + size v * sizeofZ T) by reflexivity.
  assert (Hbegin : begin v = data v) by reflexivity.
  repeat match goal with |- _ /\ _ => split end.
  - reflexivity.
  - reflexivity.
  - rewrite Hbegin. unfold is_size_t. nia.
  - rewrite Hend. unfold is_size_t. nia.
  - rewrite Hend, Hbegin. nia.
  - rewrite Hend, Hbegin. lia.
  - apply elements_length.
  - unfold end_. apply ptr_diff_add.
  - intros p Hp. apply In_elements in Hp as [i [Hi ->]].
    rewrite Hend, Hbegin. unfold is_size_t, ptr_add.
    split; [nia|]. split; [nia|].
    replace (data v + i * sizeofZ T - data v) with (i * sizeofZ T) by lia.
    apply Z.mod_mul. lia.
  - unfold empty. rewrite Z.eqb_eq, Hend, Hbegin. split.
    + intros ->. lia.
    + intros Heq. nia.
  - unfold empty. rewrite Z.eqb_eq. split.
    + intros Hz. unfold elements. now rewrite Hz.
    + intros Hnil. apply (f_equal (@length _)) in Hnil.
      rewrite elements_length in Hnil. simpl in Hnil. lia.
Qed.

Lemma traversal_between_begin_and_end_witness :
  length (elements five_ints) = 5%nat
  /\ ptr_diff int32_t (end_ five_ints) (begin five_ints) = 5
  /\ (forall p, In p (elements five_ints) ->
        is_size_t p /\ 4096 <= p < 4116 /\ (p - 4096) mod 4 = 0).
Proof.
  assert (Hs : in_address_space five_ints)
    by (repeat split; intro H; discriminate H).
  pose proof (traversal_between_begin_and_end int32_t dynamic_extent five_ints Hs)
    as (_ & _ & _ & _ & _ & Hlen & Hdiff & Hin & _).
  split; [exact Hlen | split; [exact Hdiff | exact Hin]].
Defined.

(** X3: [operator[]] with [idx < size()] returns, in both builds, a
    reference to the element a traversal reaches in step [idx]; with
    [idx >= size()] a build with assertions aborts, and no element of
    the view has that position. *)
Theorem index_is_nth_element (T : ctype) (Extent : Z)
    (v : contiguous_view T Extent) (idx : Z) :
  0 <= idx ->
  (idx < size v ->
     forall b, exists r, index b v idx = Ok r
       /\ nth_error (elements v) (Z.to_nat idx) = Some r)
  /\ (size v <= idx ->
        index Debug v idx = AssertionFailed
        /\ nth_error (elements v) (Z.to_nat idx) = None).
Proof.
  intros Hidx. split.
  - intros Hlt b. exists (ptr_add T (data v) idx). split.
    + unfold index. apply Z.ltb_lt in Hlt. rewrite Hlt. destruct b; reflexivity.
    + rewrite elements_nth by lia. now rewrite Z2Nat.id.
  - intros Hge. split.
    + rewrite index_Debug. apply Z.ltb_ge in Hge. now rewrite Hge.
    + apply nth_error_None. rewrite elements_length. lia.
Qed.

Lemma index_is_nth_element_witness :
  (exists r, index Debug five_ints 2 = Ok r
     /\ nth_error (elements five_ints) 2 = Some r)
  /\ index Debug five_ints 5 = AssertionFailed.
Proof.
  assert (H2 : 0 <= 2) by (intro H; discriminate H).
  assert (H5 : 0 <= 5) by (intro H; discriminate H).
  split.
  - apply (proj1 (index_is_nth_element int32_t dynamic_extent five_ints 2 H2)).
    reflexivity.
  - apply (proj2 (index_is_nth_element int32_t dynamic_extent five_ints 5 H5)).
    intro H; discriminate H.
Defined.

(** X4: the default constructor gives the null address; the view is
    empty when the extent is dynamic, while for a static extent its
    [size()] is the extent, so it is empty only for extent 0. *)
Theorem default_ctor_size (T : ctype) (Extent : Z) :
  data (default_ctor T Extent) = nullptr
  /\ size (default_ctor T Extent) = (if Extent =? dynamic_extent then 0 else Extent)
  /\ (empty (default_ctor T Extent) = true
      <-> Extent = dynamic_extent \/ Extent = 0)
  /\ elements (default_ctor T dynamic_extent) = [].
Proof.
  assert (Hsize : size (default_ctor T Extent)
                  = if Extent =? dynamic_extent then 0 else Extent)
    by apply size_mk.
  repeat split; try assumption.
  - unfold empty. rewrite Hsize, Z.eqb_eq.
    destruct (Extent =? dynamic_extent) eqn:He; [|now right].
    apply Z.eqb_eq in He. now left.
  - unfold empty. rewrite Hsize. intros [->| ->]; reflexivity.
Qed.

(** ** Conversions between extents *)

Lemma ctor_Debug_cases (T : ctype) (Extent : Z) (p : pointer) (count : Z) :
  ctor Debug T Extent p count
  = if (Extent =? dynamic_extent) || (count =? Extent)
    then Ok {| st := storage_ctor Extent count; _data := p |}
    else AssertionFailed.
Proof.
  unfold ctor, to_address.
  destruct (Extent =? dynamic_extent); simpl; [reflexivity|].
  destruct (count =? Extent); reflexivity.
Qed.



(** X6: a view of static extent converts to the dynamic extent and back
    without a check that can fail, and comes back as the view it was. *)
Theorem static_dynamic_round_trip (b : build) (T : ctype) (Extent : Z)
    (v : contiguous_view T Extent) :
  exists d : contiguous_view T dynamic_extent,
    converting_ctor b T dynamic_extent v = Ok d
    /\ data d = data v
    /\ size d = size v
    /\ converting_ctor b T Extent d = Ok v.
Proof.
  exists {| st := storage_ctor dynamic_extent (size v); _data := data v |}.
  split; [|split; [reflexivity | split; [reflexivity|]]].
  - unfold converting_ctor. simpl. reflexivity.
  - unfold converting_ctor, convertible.
    rewrite Z.eqb_refl, orb_true_r. simpl.
    change (size (T := T) {| st := storage_ctor dynamic_extent (size v);
                             _data := data v |}) with (size v).
    change (data (T := T) {| st := storage_ctor dynamic_extent (size v);
                             _data := data v |}) with (data v).
    assert (Hv : {| st := storage_ctor Extent (size v); _data := data v |} = v).
    { apply view_ext; [reflexivity|]. rewrite size_mk.
      destruct (Extent =? dynamic_extent) eqn:He; [reflexivity|].
      apply Z.eqb_neq in He. symmetry. now apply size_static. }
    destruct b.
    + rewrite ctor_Debug_cases.
      destruct (Extent =? dynamic_extent) eqn:He; simpl; [now rewrite Hv|].
      apply Z.eqb_neq in He.
      rewrite (size_static T Extent v He) at 1. rewrite Z.eqb_refl.
      now rewrite Hv.
    + rewrite ctor_NDEBUG. now rewrite Hv.
Qed.

(** ** Sub-ranges as slices of the traversal *)

(** Equations between addresses: unfold the pointer arithmetic and leave
    the rest to [ring] or [lia]. *)
Ltac ptr_arith :=
  unfold end_, cend, begin, cbegin, data, ptr_sub, ptr_add, sizeofZ in *; simpl;
  change pointer with Z in *;
  try match goal with |- @eq _ ?p ?q => change (@eq Z p q) end;
  first [ ring | lia | nia ].

Lemma elements_mk (T : ctype) (p : pointer) (n : Z) :
  elements (T := T) {| st := storage_ctor dynamic_extent n; _data := p |}
  = map (fun i => ptr_add T p (Z.of_nat i)) (seq 0 (Z.to_nat n)).
Proof. reflexivity. Qed.

Lemma elements_slice (T : ctype) (Extent : Z) (v : contiguous_view T Extent)
    (o n : Z) :
  0 <= o -> 0 <= n -> o + n <= size v ->
  map (fun i => ptr_add T (ptr_add T (data v) o) (Z.of_nat i)) (seq 0 (Z.to_nat n))
  = firstn (Z.to_nat n) (skipn (Z.to_nat o) (elements v)).
Proof.
  intros Ho Hn Hle. unfold elements, begin.
  rewrite skipn_map, skipn_seq, firstn_map, firstn_seq_min.
  replace (Nat.min (Z.to_nat n) (Z.to_nat (size v) - Z.to_nat o)) with (Z.to_nat n)
    by lia.
  rewrite (map_seq_from _ _ (0 + Z.to_nat o)).
  apply map_ext. intros i.
  replace (Z.of_nat (0 + Z.to_nat o + i)) with (o + Z.of_nat i) by lia.
  unfold ptr_add, pointer. ring.
Qed.

Lemma In_firstn_skipn (A : Type) (l : list A) (n m : nat) (x : A) :
  In x (firstn n (skipn m l)) -> In x l.
Proof.
  intros Hx.
  rewrite <- (firstn_skipn m l). apply in_or_app. right.
  rewrite <- (firstn_skipn n (skipn m l)). apply in_or_app. now left.
Qed.

(** When the condition of the assertion of [subview] holds. *)
Lemma subview_in_bounds_spec (T : ctype) (Extent : Z)
    (v : contiguous_view T Extent) (o c : Z) :
  is_size_t (size v) -> 0 <= o ->
  (subview_in_bounds v o c = true
   <-> o <= size v /\ (c = dynamic_extent \/ c <= size v - o)).
Proof.
  intros Hs Ho. unfold subview_in_bounds.
  rewrite andb_true_iff, orb_true_iff, Z.leb_le, Z.eqb_eq, Z.leb_le.
  split.
  - intros [Hle Hc]. rewrite (size_t_sub_id (size v) o Hs (conj Ho Hle)) in Hc.
    now split.
  - intros [Hle Hc]. rewrite (size_t_sub_id (size v) o Hs (conj Ho Hle)).
    now split.
Qed.

(** X7: a [subview] that is in bounds covers the elements of the view
    from position [offset] on: [count] of them, or all that are left
    when [count] is the sentinel; each of its elements is an element of
    the view. *)
Theorem subview_is_slice (b : build) (T : ctype) (Extent : Z)
    (v : contiguous_view T Extent) (offset count : Z) :
  is_size_t (size v) -> 0 <= offset -> 0 <= count ->
  subview_in_bounds v offset count = true ->
  exists w, subview b v offset count = Ok w
    /\ size w = (if count =? dynamic_extent then size v - offset else count)
    /\ elements w = firstn (Z.to_nat (size w)) (skipn (Z.to_nat offset) (elements v))
    /\ (count = dynamic_extent ->
        elements w = skipn (Z.to_nat offset) (elements v))
    /\ incl (elements w) (elements v).
Proof.
  intros Hs Ho Hc Hin.
  pose proof (proj1 (subview_in_bounds_spec T Extent v offset count Hs Ho) Hin)
    as [Hle Hcount].
  set (n := if count =? dynamic_extent then size v - offset else count).
  assert (Hn : 0 <= n /\ offset + n <= size v).
  { unfold n. destruct (count =? dynamic_extent) eqn:Hd; [lia|].
    apply Z.eqb_neq in Hd. destruct Hcount; [contradiction | lia]. }
  assert (Hcnt : (if count =? dynamic_extent
                  then size_t_sub (size v) offset else count) = n).
  { unfold n. destruct (count =? dynamic_extent); [|reflexivity].
    apply size_t_sub_id; [assumption | lia]. }
  eexists. split; [apply (subview_Ok b _ _ v offset count Hin)|].
  rewrite Hcnt.
  change (size (T := T) {| st := storage_ctor dynamic_extent n;
                           _data := ptr_add T (data v) offset |}) with n.
  assert (Hel : elements (T := T) {| st := storage_ctor dynamic_extent n;
                                     _data := ptr_add T (data v) offset |}
                = firstn (Z.to_nat n) (skipn (Z.to_nat offset) (elements v))).
  { rewrite elements_mk. apply elements_slice; lia. }
  split; [reflexivity|]. split; [exact Hel|]. split.
  - intros Hd. rewrite Hel. apply firstn_all2.
    rewrite length_skipn, elements_length.
    unfold n. apply Z.eqb_eq in Hd. rewrite Hd. lia.
  - rewrite Hel. intros p Hp. now apply In_firstn_skipn in Hp.
Qed.

Lemma subview_is_slice_witness :
  exists w, subview Debug five_ints 1 3 = Ok w
    /\ size w = 3
    /\ elements w = [4100; 4104; 4108].
Proof.
  assert (Hs : is_size_t (size five_ints)) by (split; intro H; discriminate H).
  assert (H1 : 0 <= 1) by (intro H; discriminate H).
  assert (H3 : 0 <= 3) by (intro H; discriminate H).
  destruct (subview_is_slice Debug int32_t dynamic_extent five_ints 1 3
              Hs H1 H3 eq_refl) as [w (Hw & Hsize & Hel & _)].
  exists w. split; [exact Hw|]. split; [exact Hsize|].
  rewrite Hel, Hsize. reflexivity.
Defined.

(** X8: in a build with assertions [subview] aborts exactly when the
    offset lies past the end or the count, not being the sentinel, is
    more than what is left after the offset. *)
Theorem subview_aborts_iff (T : ctype) (Extent : Z)
    (v : contiguous_view T Extent) (offset count : Z) :
  is_size_t (size v) -> 0 <= offset ->
  (subview Debug v offset count = AssertionFailed
   <-> size v < offset
       \/ (count <> dynamic_extent /\ size v - offset < count)).
Proof.
  intros Hs Ho. rewrite subview_Debug.
  pose proof (subview_in_bounds_spec T Extent v offset count Hs Ho) as Hspec.
  destruct (subview_in_bounds v offset count) eqn:Hin.
  - destruct (proj1 Hspec eq_refl) as [Hle Hc].
    split; [discriminate|]. intros [Hlt | [Hne Hlt]]; [lia|].
    destruct Hc; [contradiction | lia].
  - split; [|reflexivity]. intros _.
    destruct (Z.lt_ge_cases (size v) offset) as [Hlt | Hle]; [now left | right].
    destruct (Z.eq_dec count dynamic_extent) as [Hd | Hd].
    + exfalso. assert (Ht : false = true); [|discriminate Ht].
      apply Hspec. split; [assumption | now left].
    + split; [assumption|].
      destruct (Z.lt_ge_cases (size v - offset) count) as [Hlt | Hge]; [assumption|].
      exfalso. assert (Ht : false = true); [|discriminate Ht].
      apply Hspec. split; [assumption | now right].
Qed.

Lemma subview_aborts_iff_witness :
  subview Debug five_ints 3 3 = AssertionFailed
  <-> size five_ints < 3 \/ (3 <> dynamic_extent /\ size five_ints - 3 < 3).
Proof.
  assert (Hs : is_size_t (size five_ints)) by (split; intro H; discriminate H).
  assert (H3 : 0 <= 3) by (intro H; discriminate H).
  exact (subview_aborts_iff int32_t dynamic_extent five_ints 3 3 Hs H3).
Defined.

(** X9: [first(n)] is [subview(0, n)] and [last(n)] is
    [subview(size() - n, n)] for every [n <= size()].  Past the end they
    part at the sentinel: [first(SIZE_MAX)] aborts in a build with
    assertions, [subview(0, SIZE_MAX)] is the whole view. *)
Theorem first_last_are_subviews (b : build) (T : ctype) (Extent : Z)
    (v : contiguous_view T Extent) (n : Z) :
  is_size_t (size v) ->
  (0 <= n <= size v ->
     first b v n = subview b v 0 n
     /\ last b v n = subview b v (size v - n) n)
  /\ (size v < SIZE_MAX ->
        first Debug v dynamic_extent = AssertionFailed
        /\ last Debug v dynamic_extent = AssertionFailed
        /\ exists w, subview Debug v 0 dynamic_extent = Ok w
                     /\ data w = data v /\ size w = size v).
Proof.
  intros Hs. split.
  - intros [Hlo Hhi].
    assert (Hcount : forall o, 0 <= o -> o + n <= size v ->
              subview b v o n
              = Ok {| st := storage_ctor dynamic_extent n;
                      _data := ptr_add T (data v) o |}).
    { intros o Ho Hon.
      assert (Hin : subview_in_bounds v o n = true).
      { apply subview_in_bounds_spec; [assumption | assumption |].
        split; [lia | right; lia]. }
      rewrite (subview_Ok b _ _ v o n Hin). f_equal.
      apply dynamic_view_ext; [reflexivity|].
      rewrite !size_mk. simpl.
      destruct (n =? dynamic_extent) eqn:Hd; [|reflexivity].
      apply Z.eqb_eq in Hd.
      rewrite size_t_sub_id by (auto; lia).
      destruct Hs as [_ Hs]. rewrite dynamic_extent_is_SIZE_MAX in Hd. lia. }
    split.
    + rewrite (first_Ok b T Extent v n Hhi), (Hcount 0) by lia.
      f_equal. apply dynamic_view_ext; [|reflexivity].
      unfold data, ptr_add. simpl. lia.
    + rewrite (last_Ok b T Extent v n Hhi), (Hcount (size v - n)) by lia.
      f_equal. apply dynamic_view_ext; [|reflexivity].
      unfold data, ptr_sub, end_, begin, ptr_add, data. simpl. lia.
  - intros Hlt.
    assert (Hgt : (dynamic_extent <=? size v) = false)
      by (apply Z.leb_gt; rewrite dynamic_extent_is_SIZE_MAX; exact Hlt).
    split; [unfold first; simpl; now rewrite Hgt|].
    split; [unfold last; simpl; now rewrite Hgt|].
    assert (Hin : subview_in_bounds v 0 dynamic_extent = true).
    { apply subview_in_bounds_spec; [assumption | lia |].
      destruct Hs. split; [lia | now left]. }
    eexists. split; [apply (subview_Ok Debug _ _ v 0 dynamic_extent Hin)|].
    split.
    + unfold data, ptr_add. simpl. lia.
    + rewrite size_mk. simpl. rewrite size_t_sub_id by (auto; destruct Hs; lia). lia.
Qed.

Lemma first_last_are_subviews_witness :
  first Debug five_ints 2 = subview Debug five_ints 0 2
  /\ last Debug five_ints 2 = subview Debug five_ints (size five_ints - 2) 2
  /\ first Debug five_ints dynamic_extent = AssertionFailed.
Proof.
  assert (Hs : is_size_t (size five_ints)) by (split; intro H; discriminate H).
  assert (Hn : 0 <= 2 <= size five_ints) by (split; intro H; discriminate H).
  assert (Hlt : size five_ints < SIZE_MAX) by reflexivity.
  destruct (first_last_are_subviews Debug int32_t dynamic_extent five_ints 2 Hs)
    as [Hsub Hsent].
  destruct (Hsub Hn) as [Hf Hl]. destruct (Hsent Hlt) as [Ha _].
  split; [exact Hf | split; [exact Hl | exact Ha]].
Defined.

(** X10: [first(n)] and [last(size() - n)] split the view: the second
    starts where the first ends, and their elements, in this order, are
    the elements of the view. *)
Theorem first_last_partition (b : build) (T : ctype) (Extent : Z)
    (v : contiguous_view T Extent) (n : Z) :
  0 <= n <= size v ->
  exists p q : contiguous_view T dynamic_extent,
    first b v n = Ok p
    /\ last b v (size v - n) = Ok q
    /\ end_ p = begin q
    /\ size p + size q = size v
    /\ elements p ++ elements q = elements v.
Proof.
  intros [Hlo Hhi].
  assert (Hle : size v - n <= size v) by lia.
  eexists. eexists.
  split; [apply (first_Ok b T Extent v n Hhi)|].
  split; [apply (last_Ok b T Extent v (size v - n) Hle)|].
  assert (Hq : ptr_sub T (end_ v) (size v - n) = ptr_add T (ptr_add T (data v) n) 0)
    by ptr_arith.
  split; [|split].
  - change (ptr_add T (data v) n = ptr_sub T (end_ v) (size v - n)).
    ptr_arith.
  - change (n + (size v - n) = size v). ring.
  - rewrite !elements_mk.
    rewrite <- (firstn_skipn (Z.to_nat n) (elements v)).
    f_equal.
    + rewrite <- (skipn_O (elements v)) at 1.
      change 0%nat with (Z.to_nat 0) at 2.
      rewrite <- elements_slice by lia.
      apply map_ext. intros i. ptr_arith.
    + rewrite <- (firstn_all2 (n := Z.to_nat (size v - n))
                              (skipn (Z.to_nat n) (elements v)))
        by (rewrite length_skipn, elements_length; lia).
      rewrite <- elements_slice by lia.
      apply map_ext. intros i. rewrite Hq. ptr_arith.
Qed.

Lemma first_last_partition_witness :
  exists p q : contiguous_view int32_t dynamic_extent,
    first Debug five_ints 2 = Ok p
    /\ last Debug five_ints (size five_ints - 2) = Ok q
    /\ end_ p = begin q
    /\ size p + size q = size five_ints
    /\ elements p ++ elements q = elements five_ints.
Proof.
  assert (Hn : 0 <= 2 <= size five_ints) by (split; intro H; discriminate H).
  exact (first_last_partition Debug int32_t dynamic_extent five_ints 2 Hn).
Defined.

(** X11: indexing into a sub-range is indexing into the view at the
    shifted position: [v.subview(o, c)[i]] is [v[o + i]] for every [i]
    below the size of the sub-range, and no assertion fails. *)
Theorem index_of_subview (b : build) (T : ctype) (Extent : Z)
    (v : contiguous_view T Extent) (o c i : Z)
    (w : contiguous_view T dynamic_extent) :
  is_size_t (size v) -> 0 <= o -> 0 <= c ->
  subview_in_bounds v o c = true ->
  subview b v o c = Ok w ->
  0 <= i < size w ->
  index b w i = index b v (o + i)
  /\ index b v (o + i) = Ok (ptr_add T (data v) (o + i)).
Proof.
  intros Hs Ho Hc Hin Hw Hi.
  pose proof (proj1 (subview_in_bounds_spec T Extent v o c Hs Ho) Hin)
    as [Hle Hcount].
  rewrite (subview_Ok b _ _ v o c Hin) in Hw. injection Hw as Hw.
  assert (Hsw : size w = if c =? dynamic_extent then size_t_sub (size v) o else c)
    by (rewrite <- Hw; reflexivity).
  assert (Hdw : data w = ptr_add T (data v) o)
    by (rewrite <- Hw; reflexivity).
  rewrite Hsw in Hi.
  assert (Hlt : o + i < size v).
  { destruct (c =? dynamic_extent) eqn:Hd.
    - rewrite size_t_sub_id in Hi by (auto; lia). lia.
    - apply Z.eqb_neq in Hd. destruct Hcount; [contradiction | lia]. }
  assert (Hv : index b v (o + i) = Ok (ptr_add T (data v) (o + i))).
  { unfold index. apply Z.ltb_lt in Hlt. rewrite Hlt. destruct b; reflexivity. }
  split; [|exact Hv]. rewrite Hv.
  unfold index. rewrite Hsw, Hdw.
  destruct Hi as [_ Hi]. apply Z.ltb_lt in Hi. rewrite Hi.
  assert (Hp : forall p q : pointer, p = q -> Ok p = Ok q) by (intros; congruence).
  destruct b; simpl; apply Hp; ptr_arith.
Qed.

Lemma index_of_subview_witness :
  index Debug ({| st := storage_ctor dynamic_extent 3; _data := 4100 |}
                 : contiguous_view int32_t dynamic_extent) 2
  = index Debug five_ints (1 + 2)
  /\ index Debug five_ints (1 + 2) = Ok 4108.
Proof.
  assert (Hs : is_size_t (size five_ints)) by (split; intro H; discriminate H).
  assert (H1 : 0 <= 1) by (intro H; discriminate H).
  assert (H3 : 0 <= 3) by (intro H; discriminate H).
  assert (Hi : 0 <= 2 < size ({| st := storage_ctor dynamic_extent 3; _data := 4100 |}
                                : contiguous_view int32_t dynamic_extent))
    by (split; [intro H; discriminate H | reflexivity]).
  exact (index_of_subview Debug int32_t dynamic_extent five_ints 1 3 2
           {| st := storage_ctor dynamic_extent 3; _data := 4100 |}
           Hs H1 H3 eq_refl eq_refl Hi).
Defined.

(** ** The sub-range templates *)

Lemma ctor_exact (b : build) (T : ctype) (Extent : Z) (p : pointer) :
  ctor b T Extent p Extent = Ok {| st := storage_ctor Extent Extent; _data := p |}.
Proof.
  unfold ctor, to_address. rewrite Z.eqb_refl.
  destruct (negb (Extent =? dynamic_extent)), b; reflexivity.
Qed.

Lemma subview_NDEBUG (T : ctype) (Extent : Z) (v : contiguous_view T Extent)
    (o c : Z) :
  subview NDEBUG v o c
  = Ok {| st := storage_ctor dynamic_extent
                  (if c =? dynamic_extent then size_t_sub (size v) o else c);
          _data := ptr_add T (data v) o |}.
Proof. reflexivity. Qed.

(** The count [subview<Offset, Count>()] passes on is the extent of its
    result, when that extent is static. *)
Lemma subview_static_count (T : ctype) (Extent : Z) (v : contiguous_view T Extent)
    (Offset Count : Z) :
  subview_extent Extent Offset Count <> dynamic_extent ->
  (if Count =? dynamic_extent then size_t_sub (size v) Offset else Count)
  = subview_extent Extent Offset Count.
Proof.
  unfold subview_extent. intros Hx.
  destruct (Count =? dynamic_extent); [|reflexivity].
  destruct (Extent =? dynamic_extent) eqn:He; [contradiction|].
  apply Z.eqb_neq in He. now rewrite (size_static T Extent v He).
Qed.

Lemma subview_static_ctor (b : build) (T : ctype) (Extent : Z)
    (v : contiguous_view T Extent) (Offset Count : Z) (p : pointer) :
  exists w,
    ctor b T (subview_extent Extent Offset Count) p
      (if Count =? dynamic_extent then size_t_sub (size v) Offset else Count) = Ok w
    /\ data w = p
    /\ size w = if Count =? dynamic_extent then size_t_sub (size v) Offset else Count.
Proof.
  destruct (Z.eq_dec (subview_extent Extent Offset Count) dynamic_extent) as [Hx | Hx].
  - rewrite Hx. eexists. split; [apply ctor_dynamic|]. split; reflexivity.
  - rewrite (subview_static_count T Extent v Offset Count Hx).
    eexists. split; [apply ctor_exact|]. split; [reflexivity|].
    rewrite size_mk. apply Z.eqb_neq in Hx. now rewrite Hx.
Qed.

(** X12: on a view of static extent the sub-range templates check their
    bounds when the program is built and nothing is left to check when
    it runs: [first<Count>()], [last<Count>()] and
    [subview<Offset, Count>()] are rejected exactly when the bound fails
    against the extent, and otherwise return in both builds. *)
Theorem static_subranges_checked_when_built (b : build) (T : ctype) (Extent : Z)
    (v : contiguous_view T Extent) (Offset Count : Z) :
  Extent <> dynamic_extent -> is_size_t Extent -> 0 <= Offset ->
  (first_static b Count v = IllFormed <-> Extent < Count)
  /\ (last_static b Count v = IllFormed <-> Extent < Count)
  /\ (subview_static b Offset Count v = IllFormed
      <-> Extent < Offset \/ (Count <> dynamic_extent /\ Extent - Offset < Count))
  /\ (Count <= Extent ->
        exists w, first_static b Count v = Ok w /\ data w = data v /\ size w = Count)
  /\ (Count <= Extent ->
        exists w, last_static b Count v = Ok w
                  /\ data w = ptr_add T (data v) (Extent - Count) /\ size w = Count)
  /\ first_static b Count v <> AssertionFailed
  /\ last_static b Count v <> AssertionFailed
  /\ subview_static b Offset Count v <> AssertionFailed.
Proof.
  intros Hne Hext Hoff.
  assert (He : (Extent =? dynamic_extent) = false) by now apply Z.eqb_neq.
  assert (Hsize : forall p : pointer,
            size (T := T) {| st := storage_ctor Count Count; _data := p |} = Count).
  { intros p. rewrite size_mk. now destruct (Count =? dynamic_extent). }
  assert (Hfirst : first_static b Count v
                   = if Count <=? Extent
                     then Ok {| st := storage_ctor Count Count; _data := data v |}
                     else IllFormed).
  { unfold first_static. rewrite He. simpl.
    destruct (Count <=? Extent); simpl; [apply ctor_exact | reflexivity]. }
  assert (Hlast : last_static b Count v
                  = if Count <=? Extent
                    then Ok {| st := storage_ctor Count Count;
                               _data := ptr_sub T (end_ v) Count |}
                    else IllFormed).
  { unfold last_static. rewrite He. simpl.
    destruct (Count <=? Extent); simpl; [apply ctor_exact | reflexivity]. }
  assert (Hsub : subview_static b Offset Count v = IllFormed
      <-> Extent < Offset \/ (Count <> dynamic_extent /\ Extent - Offset < Count)).
  { unfold subview_static. rewrite He. simpl.
    destruct (subview_static_ctor b T Extent v Offset Count (ptr_add T (data v) Offset))
      as [w [Hw _]].
    destruct (Offset <=? Extent) eqn:Ho; simpl.
    - apply Z.leb_le in Ho.
      rewrite (size_t_sub_id Extent Offset Hext (conj Hoff Ho)).
      destruct (Count =? dynamic_extent) eqn:Hc; simpl.
      + rewrite Hw. apply Z.eqb_eq in Hc.
        split; [discriminate | intros [Hlt | [Hn _]]; [lia | contradiction]].
      + apply Z.eqb_neq in Hc.
        destruct (Count <=? Extent - Offset) eqn:Hle; simpl.
        * apply Z.leb_le in Hle. rewrite Hw.
          split; [discriminate | intros [Hlt | [_ Hlt]]; lia].
        * apply Z.leb_gt in Hle. split; [intros _; right; now split | reflexivity].
    - apply Z.leb_gt in Ho. split; [intros _; now left | reflexivity]. }
  repeat match goal with |- _ /\ _ => split end.
  - rewrite Hfirst. destruct (Count <=? Extent) eqn:Hle.
    + apply Z.leb_le in Hle. split; [discriminate | lia].
    + apply Z.leb_gt in Hle. split; [intros _; exact Hle | reflexivity].
  - rewrite Hlast. destruct (Count <=? Extent) eqn:Hle.
    + apply Z.leb_le in Hle. split; [discriminate | lia].
    + apply Z.leb_gt in Hle. split; [intros _; exact Hle | reflexivity].
  - exact Hsub.
  - intros Hle. apply Z.leb_le in Hle. rewrite Hfirst, Hle.
    eexists. split; [reflexivity|]. split; [reflexivity | apply Hsize].
  - intros Hle. apply Z.leb_le in Hle. rewrite Hlast, Hle.
    eexists. split; [reflexivity|]. split; [|apply Hsize].
    change (ptr_sub T (end_ v) Count = ptr_add T (data v) (Extent - Count)).
    unfold end_. rewrite (size_static T Extent v Hne). ptr_arith.
  - rewrite Hfirst. destruct (Count <=? Extent); discriminate.
  - rewrite Hlast. destruct (Count <=? Extent); discriminate.
  - unfold subview_static. rewrite He. simpl.
    destruct (subview_static_ctor b T Extent v Offset Count (ptr_add T (data v) Offset))
      as [w [Hw _]].
    unfold static_assert.
    match goal with |- context [if ?c then Ok tt else IllFormed] => destruct c end;
      simpl; [rewrite Hw|]; discriminate.
Qed.

Lemma static_subranges_checked_when_built_witness :
  (exists w, first_static Debug 2 three_ints = Ok w /\ data w = 4096 /\ size w = 2)
  /\ (exists w, last_static Debug 2 three_ints = Ok w /\ data w = 4100 /\ size w = 2)
  /\ (first_static Debug 4 three_ints = IllFormed <-> 3 < 4).
Proof.
  assert (Hne : 3 <> dynamic_extent) by (intro H; discriminate H).
  assert (Ht : is_size_t 3) by (split; intro H; discriminate H).
  assert (H0 : 0 <= 0) by (intro H; discriminate H).
  assert (Hle : 2 <= 3) by (intro H; discriminate H).
  destruct (static_subranges_checked_when_built Debug int32_t 3 three_ints 0 2
              Hne Ht H0) as (_ & _ & _ & Hf & Hl & _).
  destruct (static_subranges_checked_when_built Debug int32_t 3 three_ints 0 4
              Hne Ht H0) as (Hill & _).
  split; [exact (Hf Hle) | split; [exact (Hl Hle) | exact Hill]].
Defined.

Lemma first_NDEBUG (T : ctype) (Extent : Z) (v : contiguous_view T Extent) (n : Z) :
  first NDEBUG v n = Ok {| st := storage_ctor dynamic_extent n; _data := data v |}.
Proof. reflexivity. Qed.

Lemma last_NDEBUG (T : ctype) (Extent : Z) (v : contiguous_view T Extent) (n : Z) :
  last NDEBUG v n
  = Ok {| st := storage_ctor dynamic_extent n; _data := ptr_sub T (end_ v) n |}.
Proof. reflexivity. Qed.

(** What a passed bounds check of a sub-range template says. *)
Lemma static_check_passed (b : build) (Extent : Z) (A : Type)
    (cs cd : bool) (k : outcome A) (w : A) :
  ((if negb (Extent =? dynamic_extent) then static_assert cs else assert b cd) ;;; k)
  = Ok w ->
  k = Ok w
  /\ (Extent <> dynamic_extent -> cs = true)
  /\ (Extent = dynamic_extent -> b = Debug -> cd = true).
Proof.
  destruct (Extent =? dynamic_extent) eqn:He; simpl.
  - apply Z.eqb_eq in He. destruct b; simpl.
    + destruct cd; simpl; [|discriminate].
      intros Hk. split; [exact Hk | split; [contradiction | reflexivity]].
    + intros Hk. split; [exact Hk | split; [contradiction | discriminate]].
  - apply Z.eqb_neq in He. unfold static_assert.
    destruct cs; simpl; [|discriminate].
    intros Hk. split; [exact Hk | split; [reflexivity | contradiction]].
Qed.

(** X13: a sub-range template that returns, returns what the member
    with run-time arguments returns for the same numbers: the same
    [data()] and [size()], with the extent moved into the type. *)
Theorem templates_agree_with_members (b : build) (T : ctype) (Extent : Z)
    (v : contiguous_view T Extent) (Offset Count : Z) :
  (forall w, first_static b Count v = Ok w ->
     exists w', first b v Count = Ok w' /\ data w = data w' /\ size w = size w')
  /\ (forall w, last_static b Count v = Ok w ->
        exists w', last b v Count = Ok w' /\ data w = data w' /\ size w = size w')
  /\ (forall w, subview_static b Offset Count v = Ok w ->
        exists w', subview b v Offset Count = Ok w'
                   /\ data w = data w' /\ size w = size w').
Proof.
  assert (Hsize : forall p : pointer,
            size (T := T) {| st := storage_ctor Count Count; _data := p |} = Count).
  { intros p. rewrite size_mk. now destruct (Count =? dynamic_extent). }
  assert (Hbound : forall w : contiguous_view T Count,
            (forall k, ((if negb (Extent =? dynamic_extent)
                         then static_assert (Count <=? Extent)
                         else assert b (Count <=? size v)) ;;; k) = Ok w ->
                       k = Ok w /\ (b = Debug -> Count <= size v))).
  { intros w k Hk. apply static_check_passed in Hk as (Hk & Hs & Hd).
    split; [exact Hk|]. intros Hb. apply Z.leb_le.
    destruct (Z.eq_dec Extent dynamic_extent) as [He | He].
    - now apply Hd.
    - rewrite (size_static T Extent v He). now apply Hs. }
  split; [|split].
  - intros w Hw. unfold first_static in Hw.
    apply Hbound in Hw as [Hw Hle]. rewrite ctor_exact in Hw. injection Hw as <-.
    exists {| st := storage_ctor dynamic_extent Count; _data := data v |}.
    split; [|split; [reflexivity|]].
    + destruct b; [apply first_Ok; now apply Hle | apply first_NDEBUG].
    + rewrite Hsize. reflexivity.
  - intros w Hw. unfold last_static in Hw.
    apply Hbound in Hw as [Hw Hle]. rewrite ctor_exact in Hw. injection Hw as <-.
    exists {| st := storage_ctor dynamic_extent Count;
              _data := ptr_sub T (end_ v) Count |}.
    split; [|split; [reflexivity|]].
    + destruct b; [apply last_Ok; now apply Hle | apply last_NDEBUG].
    + rewrite Hsize. reflexivity.
  - intros w Hw. unfold subview_static in Hw.
    apply static_check_passed in Hw as (Hw & Hs & Hd).
    destruct (subview_static_ctor b T Extent v Offset Count (ptr_add T (data v) Offset))
      as [w0 (Hw0 & Hdata & Hsz)].
    rewrite Hw0 in Hw. injection Hw as <-.
    exists {| st := storage_ctor dynamic_extent
                      (if Count =? dynamic_extent
                       then size_t_sub (size v) Offset else Count);
              _data := ptr_add T (data v) Offset |}.
    split; [|split; [exact Hdata | exact Hsz]].
    destruct b; [|apply subview_NDEBUG].
    apply subview_Ok. unfold subview_in_bounds.
    destruct (Z.eq_dec Extent dynamic_extent) as [He | He].
    + now apply Hd.
    + rewrite (size_static T Extent v He). now apply Hs.
Qed.

Lemma templates_agree_with_members_witness :
  exists w', subview Debug three_ints 1 2 = Ok w'
             /\ data ({| st := storage_ctor 2 2; _data := 4100 |}
                        : contiguous_view int32_t 2) = data w'
             /\ size ({| st := storage_ctor 2 2; _data := 4100 |}
                        : contiguous_view int32_t 2) = size w'.
Proof.
  exact (proj2 (proj2 (templates_agree_with_members Debug int32_t 3 three_ints 1 2))
           {| st := storage_ctor 2 2; _data := 4100 |} eq_refl).
Defined.

(** ** Markers in the wrong order *)

(** X14: two markers in the address space, [k] elements and no more
    than [PTRDIFF_MAX] bytes apart, in the wrong order, abort a build
    with assertions; without assertions the distance, which is negative,
    is converted to [size_t] and the view gets [2^64 - k] as its
    [size()]. *)
Theorem reversed_range_wraps (T : ctype) (first : pointer) (k : Z) :
  0 < k ->
  k * sizeofZ T <= PTRDIFF_MAX ->
  is_size_t first ->
  is_size_t (ptr_add T first k) ->
  range_ctor Debug T dynamic_extent (ptr_add T first k) first = AssertionFailed
  /\ - PTRDIFF_MAX <= first - ptr_add T first k < 0
  /\ exists w, range_ctor NDEBUG T dynamic_extent (ptr_add T first k) first = Ok w
               /\ data w = ptr_add T first k
               /\ size w = SIZE_MAX + 1 - k.
Proof.
  intros Hlo Hbytes _ _. pose proof (sizeofZ_pos T) as Hpos.
  assert (Hhi : k <= SIZE_MAX).
  { assert (Hmax : PTRDIFF_MAX <= SIZE_MAX) by (intro H; discriminate H). nia. }
  assert (Hdiff : ptr_diff T first (ptr_add T first k) = - k).
  { unfold ptr_diff, ptr_add. change pointer with Z in *.
    replace (first - (first + k * sizeofZ T)) with ((- k) * sizeofZ T) by ring.
    apply Z.div_mul. lia. }
  assert (Hwrap : size_t_wrap (- k) = SIZE_MAX + 1 - k).
  { unfold size_t_wrap.
    replace (- k) with ((SIZE_MAX + 1 - k) + (-1) * (SIZE_MAX + 1)) by ring.
    rewrite Z_mod_plus_full. apply Z.mod_small. lia. }
  assert (Hgt : (ptr_add T first k <=? first) = false).
  { apply Z.leb_gt. unfold ptr_add. change pointer with Z in *. nia. }
  split; [|split].
  - unfold range_ctor. rewrite ctor_dynamic. cbn [bind assert]. now rewrite Hgt.
  - unfold ptr_add. change pointer with Z in *. nia.
  - unfold range_ctor. rewrite ctor_dynamic. cbn [bind assert].
    eexists. split; [reflexivity|]. split; [reflexivity|].
    rewrite size_mk, Z.eqb_refl. now rewrite Hdiff, Hwrap.
Qed.

Lemma reversed_range_wraps_witness :
  range_ctor Debug int32_t dynamic_extent (ptr_add int32_t 4096 2) 4096
  = AssertionFailed
  /\ exists w, range_ctor NDEBUG int32_t dynamic_extent (ptr_add int32_t 4096 2) 4096
               = Ok w
               /\ data w = ptr_add int32_t 4096 2
               /\ size w = SIZE_MAX + 1 - 2.
Proof.
  assert (Hk : 0 < 2) by reflexivity.
  assert (Hb : 2 * sizeofZ int32_t <= PTRDIFF_MAX) by (intro H; discriminate H).
  assert (Hf : is_size_t 4096) by (split; intro H; discriminate H).
  assert (Hl : is_size_t (ptr_add int32_t 4096 2))
    by (split; intro H; discriminate H).
  destruct (reversed_range_wraps int32_t 4096 2 Hk Hb Hf Hl) as (Hd & _ & Hn).
  split; [exact Hd | exact Hn].
Defined.

(** ** Assertions only abort *)

Lemma relaxes_bind (A B : Type) (d n : outcome A) (kd kn : A -> outcome B) :
  relaxes d n -> (forall a, relaxes (kd a) (kn a)) ->
  relaxes (bind d kd) (bind n kn).
Proof.
  intros [Hn Hd] Hk. destruct d as [a| |].
  - subst n. apply Hk.
  - destruct n as [a| |]; [|contradiction|].
    + split; [apply (Hk a) | exact I].
    + split; [discriminate | exact I].
  - subst n. split; [discriminate | reflexivity].
Qed.

Lemma relaxes_Ok (A : Type) (a : A) : relaxes (Ok a) (Ok a).
Proof. split; [discriminate | reflexivity]. Qed.

Lemma relaxes_assert (c : bool) : relaxes (assert Debug c) (assert NDEBUG c).
Proof. destruct c; split; simpl; try discriminate; trivial. Qed.

Lemma relaxes_static_assert (c : bool) : relaxes (static_assert c) (static_assert c).
Proof. destruct c; split; simpl; try discriminate; trivial. Qed.

Lemma relaxes_check (x cs cd : bool) :
  relaxes (if x then static_assert cs else assert Debug cd)
          (if x then static_assert cs else assert NDEBUG cd).
Proof. destruct x; [apply relaxes_static_assert | apply relaxes_assert]. Qed.

Lemma relaxes_ctor (T : ctype) (Extent : Z) (p : pointer) (n : Z) :
  relaxes (ctor Debug T Extent p n) (ctor NDEBUG T Extent p n).
Proof.
  unfold ctor. apply relaxes_bind; [|intros; apply relaxes_Ok].
  destruct (negb (Extent =? dynamic_extent));
    [apply relaxes_assert | apply relaxes_Ok].
Qed.

Lemma relaxes_const_member (T : ctype) (Extent : Z) (A : Type)
    (ret : A -> retval) (d n : outcome A) (v : contiguous_view T Extent) :
  relaxes d n -> relaxes (const_member ret d v) (const_member ret n v).
Proof.
  intros H. unfold const_member.
  apply relaxes_bind; [exact H | intros; apply relaxes_Ok].
Qed.

Create HintDb relaxes.
#[local] Hint Resolve relaxes_Ok relaxes_assert relaxes_static_assert
  relaxes_check relaxes_ctor relaxes_const_member : relaxes.

(** X15: assertions only abort.  Whatever a constructor or a member
    returns in a build with assertions it returns without them; a
    program rejected when built is rejected in both; and a build without
    assertions never aborts. *)
Theorem assertions_only_abort (T : ctype) (Extent : Z)
    (c : call T Extent) (v : contiguous_view T Extent) :
  relaxes (invoke Debug c v) (invoke NDEBUG c v)
  /\ invoke NDEBUG c v <> AssertionFailed
  /\ (forall r v', invoke Debug c v = Ok (r, v') -> invoke NDEBUG c v = Ok (r, v'))
  /\ (forall first count,
        relaxes (ctor Debug T Extent first count) (ctor NDEBUG T Extent first count))
  /\ (forall first last,
        relaxes (range_ctor Debug T Extent first last)
                (range_ctor NDEBUG T Extent first last))
  /\ (forall (U : ctype) (N : Z) (other : contiguous_view U N),
        relaxes (converting_ctor Debug T Extent other)
                (converting_ctor NDEBUG T Extent other)).
Proof.
  assert (Hinvoke : relaxes (invoke Debug c v) (invoke NDEBUG c v)).
  { destruct c; cbv beta iota delta [invoke];
      try (apply relaxes_const_member);
      try (apply relaxes_Ok);
      unfold index, front, back, subview_rest, subview, subview_static,
        first, first_static, last, last_static, as_bytes;
      first [ apply relaxes_ctor
            | apply relaxes_bind; [|intros _]; auto with relaxes
            | auto with relaxes ]. }
  split; [exact Hinvoke|]. split; [apply Hinvoke|]. split; [|split; [|split]].
  - intros r v' Hd. destruct Hinvoke as [_ Hok]. now rewrite Hd in Hok.
  - intros first count. apply relaxes_ctor.
  - intros first last. unfold range_ctor.
    apply relaxes_bind; [apply relaxes_ctor|]. intros this.
    apply relaxes_bind; [apply relaxes_assert | intros; apply relaxes_Ok].
  - intros U N other. unfold converting_ctor.
    destruct (convertible Extent N); [apply relaxes_ctor|].
    split; [discriminate | reflexivity].
Qed.

(** ** Bytes of bytes *)

(** X16: [as_bytes()] of a byte view changes nothing: the result of
    [as_bytes()] is a view of elements of size 1, [const] exactly when
    the elements of the source are, whose [size_bytes()] is its
    [size()], and whose own [as_bytes()] has the same [data()] and
    [size()]; neither call can fail. *)
Theorem as_bytes_twice (b : build) (T : ctype) (Extent : Z)
    (v : contiguous_view T Extent) :
  sizeofZ (as_bytes_return_type T) = 1
  /\ is_const (as_bytes_return_type T) = is_const T
  /\ exists w ww,
       as_bytes b v = Ok w
       /\ as_bytes b w = Ok ww
       /\ is_size_t (size w)
       /\ size_bytes w = size w
       /\ data ww = data w
       /\ size ww = size w.
Proof.
  assert (Hone : sizeofZ (as_bytes_return_type T) = 1)
    by (unfold as_bytes_return_type; destruct (is_const T); reflexivity).
  split; [exact Hone|].
  split; [unfold as_bytes_return_type; destruct (is_const T); reflexivity|].
  destruct (as_bytes_size_wraps b T Extent v) as [w (Hw & Hdw & Hsw)].
  destruct (as_bytes_size_wraps b (as_bytes_return_type T)
              (as_bytes_return_size T Extent) w) as [ww (Hww & Hdww & Hsww)].
  assert (Hrange : is_size_t (size w))
    by (rewrite Hsw; apply size_t_wrap_range).
  assert (Hbytes : size_t_mul (sizeofZ (as_bytes_return_type T)) (size w) = size w).
  { rewrite Hone. unfold size_t_mul. rewrite Z.mul_1_l.
    now apply size_t_wrap_id. }
  exists w, ww. repeat split; try assumption.
  - apply Hrange.
  - apply Hrange.
  - now rewrite Hsww.
Qed.

(** ** The ends of a view *)

(** X17: on a view that is not empty [front()] is [v[0]] and [back()]
    is [v[size() - 1]], the first and the last address of the traversal,
    in both builds. *)
Theorem front_back_are_subscripts (b : build) (T : ctype) (Extent : Z)
    (v : contiguous_view T Extent) :
  0 < size v ->
  front b v = index b v 0
  /\ back b v = index b v (size v - 1)
  /\ (exists r, front b v = Ok r /\ hd_error (elements v) = Some r)
  /\ (exists r, back b v = Ok r
        /\ nth_error (elements v) (Z.to_nat (size v - 1)) = Some r).
Proof.
  intros Hpos.
  assert (Hidx : forall i, 0 <= i < size v ->
            index b v i = Ok (ptr_add T (data v) i)).
  { intros i [_ Hi]. unfold index. apply Z.ltb_lt in Hi. rewrite Hi.
    destruct b; reflexivity. }
  assert (Hp : forall p q : pointer, p = q -> Ok p = Ok q) by (intros; congruence).
  assert (Hfront : front b v = Ok (ptr_add T (data v) 0))
    by (unfold front; apply Hp; ptr_arith).
  assert (Hback : back b v = Ok (ptr_add T (data v) (size v - 1)))
    by (unfold back; apply Hp; ptr_arith).
  split; [rewrite Hidx by lia; exact Hfront|].
  split; [rewrite Hidx by lia; exact Hback|].
  split.
  - eexists. split; [exact Hfront|].
    rewrite <- nth_error_0. now rewrite elements_nth by lia.
  - eexists. split; [exact Hback|].
    rewrite elements_nth by lia. now rewrite Z2Nat.id by lia.
Qed.

Lemma front_back_are_subscripts_witness :
  front Debug five_ints = index Debug five_ints 0
  /\ back Debug five_ints = index Debug five_ints (size five_ints - 1)
  /\ back Debug five_ints = Ok 4112.
Proof.
  assert (Hpos : 0 < size five_ints) by reflexivity.
  destruct (front_back_are_subscripts Debug int32_t dynamic_extent five_ints Hpos)
    as (Hf & Hb & _).
  split; [exact Hf | split; [exact Hb | reflexivity]].
Defined.

(** X18: [first(n)] and [last(n)] with [n > size()] abort a build with
    assertions.  Without assertions they return a view of [n] elements
    that leaves the storage of the view, as far as the address space
    reaches: [first(n)] starts at [begin()] and, when its end is an
    address, ends past [end()]; [last(n)], when its start is an address,
    starts before [begin()] and ends at [end()]. *)
Theorem prefix_suffix_out_of_bounds (T : ctype) (Extent : Z)
    (v : contiguous_view T Extent) (n : Z) :
  size v < n ->
  is_size_t (begin v) ->
  is_size_t (end_ v) ->
  first Debug v n = AssertionFailed
  /\ last Debug v n = AssertionFailed
  /\ exists p q : contiguous_view T dynamic_extent,
       first NDEBUG v n = Ok p
       /\ last NDEBUG v n = Ok q
       /\ size p = n /\ size q = n
       /\ begin p = begin v
       /\ (is_size_t (end_ p) -> end_ v < end_ p)
       /\ (is_size_t (begin q) -> end_ q = end_ v /\ begin q < begin v).
Proof.
  intros Hlt _ _. pose proof (sizeofZ_pos T) as Hpos.
  assert (Hgt : (n <=? size v) = false) by now apply Z.leb_gt.
  split; [unfold first; simpl; now rewrite Hgt|].
  split; [unfold last; simpl; now rewrite Hgt|].
  eexists. eexists.
  split; [apply first_NDEBUG|]. split; [apply last_NDEBUG|].
  split; [reflexivity|]. split; [reflexivity|]. split; [reflexivity|].
  split.
  - intros _.
    change (ptr_add T (begin v) (size v) < ptr_add T (data v) n). ptr_arith.
  - intros _. split.
    + change (ptr_add T (ptr_sub T (end_ v) n) n = end_ v). ptr_arith.
    + change (ptr_sub T (end_ v) n < begin v). ptr_arith.
Qed.

Lemma prefix_suffix_out_of_bounds_witness :
  first Debug five_ints 6 = AssertionFailed
  /\ last Debug five_ints 6 = AssertionFailed
  /\ exists p q : contiguous_view int32_t dynamic_extent,
       first NDEBUG five_ints 6 = Ok p
       /\ last NDEBUG five_ints 6 = Ok q
       /\ size p = 6 /\ size q = 6
       /\ begin p = begin five_ints
       /\ (is_size_t (end_ p) -> end_ five_ints < end_ p)
       /\ (is_size_t (begin q) ->
           end_ q = end_ five_ints /\ begin q < begin five_ints).
Proof.
  assert (Hlt : size five_ints < 6) by reflexivity.
  assert (Hb : is_size_t (begin five_ints)) by (split; intro H; discriminate H).
  assert (He : is_size_t (end_ five_ints)) by (split; intro H; discriminate H).
  exact (prefix_suffix_out_of_bounds int32_t dynamic_extent five_ints 6 Hlt Hb He).
Defined.
